(** * Drug Central transform: a shallow embedding of
      [kg_covid_19/transform_utils/drug_central/drug_central.py]

    The transform reads the lines of [drug.target.interaction.tsv.gz], keeps
    the rows of one organism and writes a node file and an edge file.

    Text is modelled by [string], one [ascii] per code point below 256.  A
    Python [dict] of strings is a [gmap string string].  The two output file
    handles are modelled by the sequence of chunks handed to [fh.write], in
    order; the content of a file is the concatenation of its chunks.  Raised
    exceptions are values of [exn]; the statements of [run] live in a state
    and error monad in which the files survive a raise, as they do on disk. *)

From Stdlib Require Import Ascii String.
From stdpp Require Import base option list strings gmap.

(** ** Python string primitives *)

Module PyStr.

Definition tab : ascii := Ascii.ascii_of_nat 9.
Definition newline : ascii := Ascii.ascii_of_nat 10.
Definition pipe : ascii := Ascii.ascii_of_nat 124.
Definition dquote : ascii := Ascii.ascii_of_nat 34.

(** [str.isspace] on one code point below 256. *)
Definition isspace (c : ascii) : bool :=
  let n := Ascii.nat_of_ascii c in
  (((9 <=? n) && (n <=? 13)) || ((28 <=? n) && (n <=? 32))
   || (n =? 133) || (n =? 160))%nat.

Fixpoint lstrip (s : string) : string :=
  match s with
  | EmptyString => EmptyString
  | String c s' => if isspace c then lstrip s' else s
  end.

Fixpoint rstrip (s : string) : string :=
  match s with
  | EmptyString => EmptyString
  | String c s' =>
      match rstrip s' with
      | EmptyString => if isspace c then EmptyString else String c EmptyString
      | r => String c r
      end
  end.

(** [s.strip()] *)
Definition strip (s : string) : string := rstrip (lstrip s).

(** [s.split(sep)] for a separator of one character. *)
Fixpoint split (sep : ascii) (s : string) : list string :=
  match s with
  | EmptyString => [EmptyString]
  | String c s' =>
      if Ascii.eqb c sep then EmptyString :: split sep s'
      else match split sep s' with
           | [] => [String c EmptyString]
           | w :: ws => String c w :: ws
           end
  end.

(** [s.replace(c, '')] for a pattern of one character. *)
Fixpoint remove_char (c : ascii) (s : string) : string :=
  match s with
  | EmptyString => EmptyString
  | String a s' =>
      if Ascii.eqb a c then remove_char c s' else String a (remove_char c s')
  end.

(** [sep.join(l)] *)
Fixpoint join (sep : string) (l : list string) : string :=
  match l with
  | [] => EmptyString
  | [x] => x
  | x :: l' => x +:+ sep +:+ join sep l'
  end.

(** The text of a file up to its first line end. *)
Fixpoint first_line (s : string) : string :=
  match s with
  | EmptyString => EmptyString
  | String c s' => if Ascii.eqb c newline then EmptyString else String c (first_line s')
  end.

Fixpoint concat (l : list string) : string :=
  match l with
  | [] => EmptyString
  | x :: l' => x +:+ concat l'
  end.

(** [s.startswith(p)] *)
Fixpoint startswith (p s : string) : bool :=
  match p with
  | EmptyString => true
  | String a p' =>
      match s with
      | EmptyString => false
      | String b s' => Ascii.eqb a b && startswith p' s'
      end
  end.

End PyStr.

Definition TAB : string := String PyStr.tab EmptyString.
Definition NL : string := String PyStr.newline EmptyString.

(** ** Exceptions and results *)

Inductive exn : Type :=
| ItemInDictNotFound
| KeyError (key : string)
| DataShapeError
| HeaderDataLengthError.

Definition result (A : Type) : Type := exn + A.

(** [d[k]]: a subscript on a dict raises [KeyError] on a missing key. *)
Definition getitem (d : gmap string string) (k : string) : result string :=
  match d !! k with
  | Some v => inr v
  | None => inl (KeyError k)
  end.

(** ** Helpers of [kg_covid_19.utils.transform_utils] and the base class *)

(** Modelled from the spec: [parse_header] of
    [kg_covid_19/utils/transform_utils.py], which is not among the sources.
    The header is "an ordered sequence of column names, parsed once from the
    first line of the input file", the first line being "a tab-separated
    header"; it is read like a data row (outer whitespace stripped, split on
    tabs, double quotes removed from every field). *)
Definition parse_header (header_string : string) : list string :=
  PyStr.remove_char PyStr.dquote <$> PyStr.split PyStr.tab (PyStr.strip header_string).

(** Modelled from the spec: [data_to_dict] of
    [kg_covid_19/utils/transform_utils.py], which is not among the sources.
    "Build a Row Record by pairing the header sequence positionally with the
    split fields.  Fails (signals a data-shape error) if field count does not
    match header count."  A name that occurs twice in the header keeps the
    value of its last column, as a Python dict built from pairs does. *)
Fixpoint zip_to_dict (these_keys these_values : list string)
    (acc : gmap string string) : gmap string string :=
  match these_keys, these_values with
  | k :: ks, v :: vs => zip_to_dict ks vs (<[k := v]> acc)
  | _, _ => acc
  end.

Definition data_to_dict (these_keys these_values : list string)
    : result (gmap string string) :=
  if decide (length these_keys = length these_values)
  then inr (zip_to_dict these_keys these_values ∅)
  else inl DataShapeError.

(** Modelled from the spec: [get_item_by_priority] and [ItemInDictNotFound]
    of [kg_covid_19/utils/transform_utils.py], which are not among the
    sources.  "Try candidate field names in order, first present wins"; a row
    is processed "only if an identifier field for the gene target is present
    and non-empty", so a candidate counts when the record has it with a value
    other than the empty string.  When no candidate counts the lookup raises
    [ItemInDictNotFound], the exception [run] catches for "lines with no
    ACCESSION entry". *)
Fixpoint get_item_by_priority (items_dict : gmap string string)
    (keys_by_priority : list string) : result string :=
  match keys_by_priority with
  | [] => inl ItemInDictNotFound
  | key :: keys =>
      match items_dict !! key with
      | Some v => if decide (v = "") then get_item_by_priority items_dict keys
                  else inr v
      | None => get_item_by_priority items_dict keys
      end
  end.

(** Modelled from the spec: the attributes the base class [Transform] of
    [kg_covid_19/transform_utils/transform.py] (not among the sources) sets in
    its constructor.  The node header is the fixed list [id], [name],
    [category]. *)
Record Transform : Type := mkTransform {
  source_name : string;
  input_base_dir : string;
  output_dir : string;
  node_header : list string
}.

Definition Transform_init (source_name input_dir output_dir : string) : Transform :=
  {| source_name := source_name;
     input_base_dir := input_dir;
     output_dir := output_dir;
     node_header := ["id"; "name"; "category"] |}.

(** [DrugCentralTransform.__init__] *)
Definition DrugCentralTransform_init (input_dir output_dir : string) : Transform :=
  let source_name := "drug_central" in
  Transform_init source_name input_dir output_dir.

(** ** Files and the monad of [run] *)

Inductive handle : Type := node | edge.

(** The chunks written to each of the two output files, oldest first. *)
Record files : Type := mkFiles {
  node_file : list string;
  edge_file : list string
}.

Definition content (chunks : list string) : string := PyStr.concat chunks.

Definition M (A : Type) : Type := files → files * result A.

Definition ret {A} (a : A) : M A := λ fs, (fs, inr a).
Definition raise {A} (e : exn) : M A := λ fs, (fs, inl e).
Definition bind {A B} (m : M A) (k : A → M B) : M B :=
  λ fs, match m fs with
        | (fs', inr a) => k a fs'
        | (fs', inl e) => (fs', inl e)
        end.
Definition lift {A} (r : result A) : M A := λ fs, (fs, r).

#[global] Instance M_ret : MRet M := @ret.
#[global] Instance M_bind : MBind M := λ A B k m, bind m k.

(** [open(path, 'w')] truncates the file. *)
Definition open_w (fh : handle) : M unit :=
  λ fs, match fh with
        | node => ({| node_file := []; edge_file := edge_file fs |}, inr tt)
        | edge => ({| node_file := node_file fs; edge_file := [] |}, inr tt)
        end.

(** [fh.write(s)] *)
Definition write (fh : handle) (s : string) : M unit :=
  λ fs, match fh with
        | node => ({| node_file := node_file fs ++ [s]; edge_file := edge_file fs |}, inr tt)
        | edge => ({| node_file := node_file fs; edge_file := edge_file fs ++ [s] |}, inr tt)
        end.

(** A [for] loop over a list. *)
Fixpoint for_each {A} (xs : list A) (body : A → M unit) : M unit :=
  match xs with
  | [] => ret tt
  | x :: xs' => body x ;; for_each xs' body
  end.

(** Modelled from the spec: [write_node_edge_item] of
    [kg_covid_19/utils/transform_utils.py], which is not among the sources.
    "Every node/edge write is a single atomic append of one tab-joined line
    (value count must equal header length) -- if the number of values does
    not match the number of header columns, this is a fatal data-integrity
    fault." *)
Definition write_node_edge_item (fh : handle) (header data : list string) : M unit :=
  if decide (length header = length data)
  then write fh (PyStr.join TAB data +:+ NL)
  else raise HeaderDataLengthError.

(** ** The source file *)

(** [parse_drug_central_line] *)
Definition parse_drug_central_line (this_line : string) (header_items : list string)
    : result (gmap string string) :=
  let data := PyStr.split PyStr.tab (PyStr.strip this_line) in
  let data := PyStr.remove_char PyStr.dquote <$> data in
  let item_dict := data_to_dict header_items data in
  item_dict.

Definition drug_node_type : string := "biolink:Drug".
Definition gene_curie_prefix : string := "UniProtKB:".
Definition drug_curie_prefix : string := "DrugCentral:".
Definition gene_node_type : string := "biolink:Gene".
Definition drug_gene_edge_label : string := "biolink:interacts_with".
Definition drug_gene_edge_relation : string := "RO:0002436".
Definition edge_header : list string :=
  ["subject"; "edge_label"; "object"; "relation"; "provided_by"; "comment"].

(** The body of the inner loop of [run], [for gene_id in gene_ids]. *)
Definition gene_body (self : Transform) (items_dict : gmap string string)
    (drug_id : string) (gene_id : string) : M unit :=
  let gene_id := gene_curie_prefix +:+ gene_id in
  gene ← lift (getitem items_dict "GENE");
  write_node_edge_item node (node_header self) [gene_id; gene; gene_node_type] ;;
  act_comment ← lift (getitem items_dict "ACT_COMMENT");
  write_node_edge_item edge edge_header
    [drug_id; drug_gene_edge_label; gene_id; drug_gene_edge_relation;
     source_name self; act_comment].

(** The body of the outer loop of [run] once the row record is built; a
    [continue] is a normal return. *)
Definition row_body (self : Transform) (species : string)
    (items_dict : gmap string string) : M unit :=
  match items_dict !! "ORGANISM" with
  | None => ret tt
  | Some organism =>
      if decide (organism ≠ species) then ret tt
      else
        match get_item_by_priority items_dict ["ACCESSION"] with
        | inl ItemInDictNotFound => ret tt
        | inl e => raise e
        | inr gene_id_string =>
            let gene_ids := PyStr.split PyStr.pipe gene_id_string in
            struct_id ← lift (get_item_by_priority items_dict ["STRUCT_ID"]);
            let drug_id := drug_curie_prefix +:+ struct_id in
            drug_name ← lift (getitem items_dict "DRUG_NAME");
            write_node_edge_item node (node_header self)
              [drug_id; drug_name; drug_node_type] ;;
            for_each gene_ids (gene_body self items_dict drug_id)
        end
  end.

(** The body of the outer loop of [run], [for line in interactions]. *)
Definition line_body (self : Transform) (species : string)
    (header_items : list string) (line : string) : M unit :=
  items_dict ← lift (parse_drug_central_line line header_items);
  row_body self species items_dict.

(** [interactions.readline()]: the first line, or the empty string at the
    end of the file; the iteration goes on after it. *)
Definition readline (interactions : list string) : string :=
  match interactions with
  | [] => ""
  | l :: _ => l
  end.

(** [DrugCentralTransform.run]; [interactions] are the lines of the
    decompressed input file, each with its line end.  The parameter
    [data_file] is not read by the body and is left out; creating the output
    directory and opening the input are outside the model. *)
Definition run (self : Transform) (species : string) (interactions : list string)
    : M unit :=
  open_w node ;;
  open_w edge ;;
  write node (PyStr.join TAB (node_header self) +:+ NL) ;;
  write edge (PyStr.join TAB edge_header +:+ NL) ;;
  let header_items := parse_header (readline interactions) in
  for_each (tail interactions) (line_body self species header_items).

(** The default of the parameter [species]. *)
Definition default_species : string := "Homo sapiens".

(** ** Definitions used in the statements *)

(** The loop of [run] over the data lines. *)
Definition loop (self : Transform) (species : string) (header_items : list string)
    (lines : list string) : M unit :=
  for_each lines (line_body self species header_items).

(** The output files right after the two header lines are written. *)
Definition header_files (self : Transform) : files :=
  {| node_file := [PyStr.join TAB (node_header self) +:+ NL];
     edge_file := [PyStr.join TAB edge_header +:+ NL] |}.

(** The chunk [write_node_edge_item] writes for the values [items]. *)
Definition tsv_line (items : list string) : string := PyStr.join TAB items +:+ NL.

(** The chunks the inner loop writes for one accession. *)
Definition gene_node_line (name gene_id : string) : string :=
  tsv_line [gene_curie_prefix +:+ gene_id; name; gene_node_type].

Definition gene_edge_line (self : Transform) (drug_id comment gene_id : string) : string :=
  tsv_line [drug_id; drug_gene_edge_label; gene_curie_prefix +:+ gene_id;
            drug_gene_edge_relation; source_name self; comment].

(** The chunks the loop writes: node lines start with one of the two CURIE
    prefixes, edge lines with the drug prefix. *)
Definition data_node_chunk (chunk : string) : Prop :=
  PyStr.startswith drug_curie_prefix chunk = true
  ∨ PyStr.startswith gene_curie_prefix chunk = true.

Definition data_edge_chunk (chunk : string) : Prop :=
  PyStr.startswith drug_curie_prefix chunk = true.

(** [m] only appends data chunks to the two files. *)
Definition appends {A} (m : M A) : Prop :=
  ∀ fs, ∃ nodes edges,
    node_file (m fs).1 = node_file fs ++ nodes
    ∧ edge_file (m fs).1 = edge_file fs ++ edges
    ∧ Forall data_node_chunk nodes ∧ Forall data_edge_chunk edges.

(** ** Predicates on strings and runs used in the further properties *)

(** [c in s] for one character. *)
Fixpoint has_char (c : ascii) (s : string) : bool :=
  match s with
  | EmptyString => false
  | String a s' => Ascii.eqb a c || has_char c s'
  end.

(** [s.isspace()] or [s] empty: nothing but whitespace. *)
Fixpoint all_space (s : string) : bool :=
  match s with
  | EmptyString => true
  | String a s' => PyStr.isspace a && all_space s'
  end.

(** The files [fs] with the chunks of [out] written after them. *)
Definition add_files (fs out : files) : files :=
  {| node_file := node_file fs ++ node_file out;
     edge_file := edge_file fs ++ edge_file out |}.

(** [m] reads nothing of the files: from any files it appends the chunks it
    writes from empty files, and ends the same way. *)
Definition framed {A} (m : M A) : Prop :=
  ∀ fs, m fs = (add_files fs (m {| node_file := []; edge_file := [] |}).1,
                (m {| node_file := []; edge_file := [] |}).2).

(** From files that satisfy [P], [m] returns [a] with files that satisfy
    [Q a], or raises [e] with files that satisfy [E e]. *)
Definition hoare {A} (P : files → Prop) (m : M A)
    (Q : A → files → Prop) (E : exn → files → Prop) : Prop :=
  ∀ fs, P fs →
    match m fs with
    | (fs', inr a) => Q a fs'
    | (fs', inl e) => E e fs'
    end.

(** An edge line whose two ends have a node line among [nodes]. *)
Definition edge_with_nodes (self : Transform) (nodes : list string) (chunk : string)
    : Prop :=
  ∃ struct_id gene_id drug_name gene_name comment,
    chunk = tsv_line [drug_curie_prefix +:+ struct_id; drug_gene_edge_label;
                      gene_curie_prefix +:+ gene_id; drug_gene_edge_relation;
                      source_name self; comment]
    ∧ tsv_line [drug_curie_prefix +:+ struct_id; drug_name; drug_node_type] ∈ nodes
    ∧ tsv_line [gene_curie_prefix +:+ gene_id; gene_name; gene_node_type] ∈ nodes.

(** A line as the iteration over a text file gives it: it holds no line feed
    before its last character. *)
Fixpoint text_line (s : string) : bool :=
  match s with
  | EmptyString => true
  | String c s' =>
      match s' with
      | EmptyString => true
      | String _ _ => negb (Ascii.eqb c PyStr.newline) && text_line s'
      end
  end.

(** A chunk that is one line of [n] values: no value holds a tab or a line
    feed. *)
Definition tsv_row (n : nat) (chunk : string) : Prop :=
  ∃ values,
    chunk = tsv_line values ∧ length values = n
    ∧ Forall (λ v, has_char PyStr.tab v = false
                   ∧ has_char PyStr.newline v = false) values.

(** The exceptions the processing of the rows raises. *)
Definition run_exn (e : exn) : Prop :=
  e = DataShapeError ∨ e = ItemInDictNotFound
  ∨ e = KeyError "DRUG_NAME" ∨ e = KeyError "GENE" ∨ e = KeyError "ACT_COMMENT".

(** The files after [fh.write(s)]. *)
Definition written (fh : handle) (s : string) (fs : files) : files :=
  match fh with
  | node => {| node_file := node_file fs ++ [s]; edge_file := edge_file fs |}
  | edge => {| node_file := node_file fs; edge_file := edge_file fs ++ [s] |}
  end.

(** Every edge line after the header line has its two node lines. *)
Definition edges_linked (self : Transform) (fs : files) : Prop :=
  ∀ chunk, chunk ∈ drop 1 (edge_file fs) → edge_with_nodes self (node_file fs) chunk.

(** The drug line of [sid] is written. *)
Definition drug_written (self : Transform) (sid : string) (fs : files) : Prop :=
  edges_linked self fs
  ∧ ∃ name, tsv_line [drug_curie_prefix +:+ sid; name; drug_node_type] ∈ node_file fs.

(** Every chunk of the node file is a line of three values, every chunk of
    the edge file a line of six. *)
Definition all_tsv_rows (fs : files) : Prop :=
  Forall (tsv_row 3) (node_file fs) ∧ Forall (tsv_row 6) (edge_file fs).

(** No chunk of either file holds a double quote. *)
Definition no_quotes (fs : files) : Prop :=
  Forall (λ chunk, has_char PyStr.dquote chunk = false) (node_file fs)
  ∧ Forall (λ chunk, has_char PyStr.dquote chunk = false) (edge_file fs).

(** ** Sample inputs *)

Module Sample.
Definition self : Transform := DrugCentralTransform_init "data/raw" "data/transformed".
Definition no_files : files := {| node_file := []; edge_file := [] |}.

Definition header : string :=
  tsv_line ["STRUCT_ID"; "DRUG_NAME"; "GENE"; "ACCESSION"; "ORGANISM"; "ACT_COMMENT"].
Definition human : string :=
  tsv_line ["99"; "Foo"; "BAR"; "P00001"; "Homo sapiens"; "inhibits"].
Definition human_record : gmap string string :=
  <["ACT_COMMENT" := "inhibits"]> (<["ORGANISM" := "Homo sapiens"]>
  (<["ACCESSION" := "P00001"]> (<["GENE" := "BAR"]>
  (<["DRUG_NAME" := "Foo"]> (<["STRUCT_ID" := "99"]> ∅))))).
Definition two_genes : string :=
  tsv_line ["99"; "Foo"; "BAR"; "P12345|Q67890"; "Homo sapiens"; "inhibits"].
Definition two_genes_record : gmap string string :=
  <["ACCESSION" := "P12345|Q67890"]> human_record.
Definition mouse : string :=
  tsv_line ["7"; "Baz"; "Qux"; "P00002"; "Mus musculus"; "binds"].
Definition mouse_record : gmap string string :=
  <["ACT_COMMENT" := "binds"]> (<["ORGANISM" := "Mus musculus"]>
  (<["ACCESSION" := "P00002"]> (<["GENE" := "Qux"]>
  (<["DRUG_NAME" := "Baz"]> (<["STRUCT_ID" := "7"]> ∅))))).
Definition empty_accession : string :=
  tsv_line ["99"; "Foo"; "BAR"; ""; "Homo sapiens"; "inhibits"].
Definition trailing_pipe : string :=
  tsv_line ["99"; "Foo"; "BAR"; "P00001|"; "Homo sapiens"; "inhibits"].
Definition lower_case : string :=
  tsv_line ["99"; "Foo"; "BAR"; "P00001"; "homo sapiens"; "inhibits"].
Definition short_row : string := tsv_line ["99"; "Foo"; "BAR"].

(** Files without some of the columns. *)
Definition header_no_accession : string :=
  tsv_line ["STRUCT_ID"; "DRUG_NAME"; "GENE"; "ORGANISM"; "ACT_COMMENT"].
Definition human_no_accession : string :=
  tsv_line ["99"; "Foo"; "BAR"; "Homo sapiens"; "inhibits"].
Definition human_no_accession_record : gmap string string :=
  delete "ACCESSION" human_record.
Definition header_no_struct_id : string :=
  tsv_line ["DRUG_NAME"; "GENE"; "ACCESSION"; "ORGANISM"; "ACT_COMMENT"].
Definition human_no_struct_id : string :=
  tsv_line ["Foo"; "BAR"; "P00001"; "Homo sapiens"; "inhibits"].
Definition human_no_struct_id_record : gmap string string :=
  delete "STRUCT_ID" human_record.
Definition empty_accession_no_struct_id : string :=
  tsv_line ["Foo"; "BAR"; ""; "Homo sapiens"; "inhibits"].
Definition two_genes_no_struct_id : string :=
  tsv_line ["Foo"; "BAR"; "P12345|Q67890"; "Homo sapiens"; "inhibits"].
Definition header_no_gene : string :=
  tsv_line ["STRUCT_ID"; "DRUG_NAME"; "ACCESSION"; "ORGANISM"; "ACT_COMMENT"].
Definition human_no_gene : string :=
  tsv_line ["99"; "Foo"; "P00001"; "Homo sapiens"; "inhibits"].
Definition human_no_gene_record : gmap string string :=
  delete "GENE" human_record.
Definition empty_accession_no_gene : string :=
  tsv_line ["99"; "Foo"; ""; "Homo sapiens"; "inhibits"].
Definition header_no_gene_no_struct_id : string :=
  tsv_line ["DRUG_NAME"; "ACCESSION"; "ORGANISM"; "ACT_COMMENT"].
Definition human_no_gene_no_struct_id : string :=
  tsv_line ["Foo"; "P00001"; "Homo sapiens"; "inhibits"].
End Sample.

(** * Properties *)

(** ** The string primitives on small inputs *)

Example strip_line : PyStr.strip ("  a b " +:+ TAB +:+ NL) = "a b".
Proof. reflexivity. Qed.

Example strip_blank : PyStr.strip (" " +:+ TAB +:+ NL) = "".
Proof. reflexivity. Qed.

Example split_keeps_empty_fields :
  PyStr.split PyStr.tab ("a" +:+ TAB +:+ TAB +:+ "b") = ["a"; ""; "b"].
Proof. reflexivity. Qed.

Example split_empty : PyStr.split PyStr.pipe "" = [""].
Proof. reflexivity. Qed.

Example split_two_accessions :
  PyStr.split PyStr.pipe "P12345|Q67890" = ["P12345"; "Q67890"].
Proof. reflexivity. Qed.

Example join_three : PyStr.join "," ["a"; "b"; "c"] = "a,b,c".
Proof. reflexivity. Qed.

Example quotes_removed :
  parse_drug_central_line
    (String PyStr.dquote "99" +:+ String PyStr.dquote "" +:+ TAB +:+ "Foo" +:+ NL)
    ["STRUCT_ID"; "DRUG_NAME"]
  = inr (<["DRUG_NAME" := "Foo"]> (<["STRUCT_ID" := "99"]> ∅)).
Proof. vm_compute. reflexivity. Qed.

Example header_parsed :
  parse_header Sample.header
  = ["STRUCT_ID"; "DRUG_NAME"; "GENE"; "ACCESSION"; "ORGANISM"; "ACT_COMMENT"].
Proof. reflexivity. Qed.

(** The organism test is an exact comparison: another case is another
    organism. *)
Example organism_case_sensitive :
  run Sample.self default_species [Sample.header; Sample.lower_case] Sample.no_files
  = (header_files Sample.self, inr tt).
Proof. vm_compute. reflexivity. Qed.

(** A row whose ACCESSION field is empty is not ingested. *)
Example empty_accession_row_skipped :
  run Sample.self default_species [Sample.header; Sample.empty_accession] Sample.no_files
  = (header_files Sample.self, inr tt).
Proof. vm_compute. reflexivity. Qed.

(** ** Reasoning in the monad *)

Section Monad.
Context {A B : Type}.

Lemma bind_inr (m : M A) (k : A → M B) fs fs' a :
  m fs = (fs', inr a) → (m ≫= k) fs = k a fs'.
Proof. intros H. unfold mbind, M_bind, bind. by rewrite H. Qed.

Lemma bind_inl (m : M A) (k : A → M B) fs fs' e :
  m fs = (fs', inl e) → (m ≫= k) fs = (fs', inl e).
Proof. intros H. unfold mbind, M_bind, bind. by rewrite H. Qed.

Lemma bind_lift_inr (r : result A) (k : A → M B) fs a :
  r = inr a → (lift r ≫= k) fs = k a fs.
Proof. intros ->. reflexivity. Qed.

Lemma bind_lift_inl (r : result A) (k : A → M B) fs e :
  r = inl e → (lift r ≫= k) fs = (fs, inl e).
Proof. intros ->. reflexivity. Qed.
End Monad.

Lemma for_each_cons {A} (x : A) xs (body : A → M unit) fs :
  for_each (x :: xs) body fs =
  match body x fs with
  | (fs', inr _) => for_each xs body fs'
  | (fs', inl e) => (fs', inl e)
  end.
Proof. reflexivity. Qed.

Lemma for_each_app {A} (xs ys : list A) (body : A → M unit) fs :
  for_each (xs ++ ys) body fs =
  match for_each xs body fs with
  | (fs', inr _) => for_each ys body fs'
  | (fs', inl e) => (fs', inl e)
  end.
Proof.
  revert fs. induction xs as [|x xs IH]; intros fs; [reflexivity|].
  rewrite <- app_comm_cons, !for_each_cons.
  destruct (body x fs) as [fs' [e|[]]]; [reflexivity|apply IH].
Qed.

(** A row whose body returns without a write is invisible in the loop. *)
Lemma for_each_skip {A} (pre : list A) x rest (body : A → M unit) :
  (∀ fs, body x fs = (fs, inr tt)) →
  ∀ fs, for_each (pre ++ x :: rest) body fs = for_each (pre ++ rest) body fs.
Proof.
  intros Hx fs. rewrite !for_each_app.
  destruct (for_each pre body fs) as [fs' [e|[]]]; [reflexivity|].
  by rewrite for_each_cons, Hx.
Qed.

(** A row whose body raises ends the loop: the rows after it are not read. *)
Lemma for_each_abort {A} (pre : list A) x rest (body : A → M unit) fs fs1 fs2 e :
  for_each pre body fs = (fs1, inr tt) →
  body x fs1 = (fs2, inl e) →
  for_each (pre ++ x :: rest) body fs = (fs2, inl e).
Proof.
  intros Hpre Hx. rewrite for_each_app, Hpre, for_each_cons. by rewrite Hx.
Qed.

Lemma run_cons self species header_line lines fs :
  run self species (header_line :: lines) fs =
  loop self species (parse_header header_line) lines (header_files self).
Proof. reflexivity. Qed.

Lemma line_body_parsed self species header_items line d fs :
  parse_drug_central_line line header_items = inr d →
  line_body self species header_items line fs = row_body self species d fs.
Proof. intros H. unfold line_body. by apply bind_lift_inr. Qed.

(** ** The organism filter and the accession lookup *)

Lemma row_body_other_organism self species d fs :
  d !! "ORGANISM" ≠ Some species → row_body self species d fs = (fs, inr tt).
Proof.
  intros Hne. unfold row_body.
  destruct (d !! "ORGANISM") as [organism|]; [|reflexivity].
  destruct (decide (organism ≠ species)) as [|Heq]; [reflexivity|].
  destruct Hne. f_equal. by destruct (decide (organism = species)).
Qed.

Lemma get_item_absent d key :
  d !! key = None → get_item_by_priority d [key] = inl ItemInDictNotFound.
Proof. intros H. simpl. by rewrite H. Qed.

Lemma get_item_empty d key :
  d !! key = Some "" → get_item_by_priority d [key] = inl ItemInDictNotFound.
Proof. intros H. simpl. by rewrite H. Qed.

Lemma get_item_present d key v :
  d !! key = Some v → v ≠ "" → get_item_by_priority d [key] = inr v.
Proof. intros H Hv. simpl. rewrite H. by destruct (decide (v = "")). Qed.

Lemma row_body_no_accession self species d fs :
  get_item_by_priority d ["ACCESSION"] = inl ItemInDictNotFound →
  row_body self species d fs = (fs, inr tt).
Proof.
  intros Hacc. unfold row_body. rewrite Hacc.
  destruct (d !! "ORGANISM") as [organism|]; [|reflexivity].
  by destruct (decide (organism ≠ species)).
Qed.

Lemma run_skip self species header_line pre line rest :
  (∀ fs, line_body self species (parse_header header_line) line fs = (fs, inr tt)) →
  ∀ fs, run self species (header_line :: pre ++ line :: rest) fs
        = run self species (header_line :: pre ++ rest) fs.
Proof. intros H fs. rewrite !run_cons. unfold loop. by apply for_each_skip. Qed.

Lemma run_abort self species header_line pre line rest fs fs1 fs2 e :
  loop self species (parse_header header_line) pre (header_files self) = (fs1, inr tt) →
  line_body self species (parse_header header_line) line fs1 = (fs2, inl e) →
  run self species (header_line :: pre ++ line :: rest) fs = (fs2, inl e).
Proof. intros Hpre H. rewrite run_cons. unfold loop. by eapply for_each_abort. Qed.

(** C1: a data row whose record has no ORGANISM field, or has one that
    differs from the target organism, writes nothing to either file and
    returns normally; the run is the one of the input without that row, so
    it goes on with the next row. *)
Theorem organism_mismatch_skips_row self species header_line pre line rest d :
  parse_drug_central_line line (parse_header header_line) = inr d →
  d !! "ORGANISM" ≠ Some species →
  (∀ fs, line_body self species (parse_header header_line) line fs = (fs, inr tt))
  ∧ (∀ fs, run self species (header_line :: pre ++ line :: rest) fs
           = run self species (header_line :: pre ++ rest) fs).
Proof.
  intros Hd Horg.
  assert (∀ fs, line_body self species (parse_header header_line) line fs = (fs, inr tt))
    as Hline.
  { intros fs. rewrite (line_body_parsed _ _ _ _ d) by done.
    by apply row_body_other_organism. }
  split; [done|]. by apply run_skip.
Qed.

Lemma organism_mismatch_skips_row_witness :
  run Sample.self default_species [Sample.header; Sample.mouse; Sample.human] Sample.no_files
  = run Sample.self default_species [Sample.header; Sample.human] Sample.no_files.
Proof.
  refine (proj2 (organism_mismatch_skips_row Sample.self default_species Sample.header
    [] Sample.mouse [Sample.human] Sample.mouse_record _ _) Sample.no_files).
  - vm_compute. reflexivity.
  - vm_compute. discriminate.
Defined.

(** C3: the row STRUCT_ID=99, DRUG_NAME=Foo, GENE=BAR, ACCESSION=P00001,
    ORGANISM=Homo sapiens, ACT_COMMENT=inhibits makes the run write, after
    the two header lines, exactly the drug node line, the gene node line and
    the edge line of the example, and return normally. *)
Theorem end_to_end_example input_dir output_dir fs :
  run (DrugCentralTransform_init input_dir output_dir) default_species
      [Sample.header; Sample.human] fs
  = ({| node_file :=
          [ "id" +:+ TAB +:+ "name" +:+ TAB +:+ "category" +:+ NL;
            "DrugCentral:99" +:+ TAB +:+ "Foo" +:+ TAB +:+ "biolink:Drug" +:+ NL;
            "UniProtKB:P00001" +:+ TAB +:+ "BAR" +:+ TAB +:+ "biolink:Gene" +:+ NL ];
        edge_file :=
          [ "subject" +:+ TAB +:+ "edge_label" +:+ TAB +:+ "object" +:+ TAB
              +:+ "relation" +:+ TAB +:+ "provided_by" +:+ TAB +:+ "comment" +:+ NL;
            "DrugCentral:99" +:+ TAB +:+ "biolink:interacts_with" +:+ TAB
              +:+ "UniProtKB:P00001" +:+ TAB +:+ "RO:0002436" +:+ TAB
              +:+ "drug_central" +:+ TAB +:+ "inhibits" +:+ NL ] |},
     inr tt).
Proof. vm_compute. reflexivity. Qed.

(** C4: a data row of the target organism whose record has no ACCESSION
    field raises nothing, writes nothing to either file and returns normally;
    the run is the one of the input without that row. *)
Theorem missing_accession_skips_row self species header_line pre line rest d :
  parse_drug_central_line line (parse_header header_line) = inr d →
  d !! "ORGANISM" = Some species →
  d !! "ACCESSION" = None →
  (∀ fs, line_body self species (parse_header header_line) line fs = (fs, inr tt))
  ∧ (∀ fs, run self species (header_line :: pre ++ line :: rest) fs
           = run self species (header_line :: pre ++ rest) fs).
Proof.
  intros Hd Horg Hacc.
  assert (∀ fs, line_body self species (parse_header header_line) line fs = (fs, inr tt))
    as Hline.
  { intros fs. rewrite (line_body_parsed _ _ _ _ d) by done.
    by apply row_body_no_accession, get_item_absent. }
  split; [done|]. by apply run_skip.
Qed.

Lemma missing_accession_skips_row_witness :
  run Sample.self default_species
      [Sample.header_no_accession; Sample.human_no_accession; Sample.human_no_accession]
      Sample.no_files
  = run Sample.self default_species
      [Sample.header_no_accession; Sample.human_no_accession] Sample.no_files.
Proof.
  refine (proj2 (missing_accession_skips_row Sample.self default_species
    Sample.header_no_accession [] Sample.human_no_accession [Sample.human_no_accession]
    Sample.human_no_accession_record _ _ _) Sample.no_files).
  - vm_compute. reflexivity.
  - vm_compute. reflexivity.
  - vm_compute. reflexivity.
Defined.

(** ** The drug identifier and the shape of a row *)

Lemma row_body_no_struct_id self species d acc fs :
  d !! "ORGANISM" = Some species →
  d !! "ACCESSION" = Some acc → acc ≠ "" →
  get_item_by_priority d ["STRUCT_ID"] = inl ItemInDictNotFound →
  row_body self species d fs = (fs, inl ItemInDictNotFound).
Proof.
  intros Horg Hacc Hne Hsid. unfold row_body. rewrite Horg.
  destruct (decide (species ≠ species)) as [|_]; [done|].
  rewrite (get_item_present d "ACCESSION" acc) by done.
  by apply bind_lift_inl.
Qed.

(** C5, as stated, fails: a row of the target organism whose ACCESSION field
    is present with the empty string and which has no STRUCT_ID field raises
    nothing; the row is skipped and the run returns normally. *)
Lemma empty_accession_missing_struct_id_no_fault :
  parse_drug_central_line Sample.empty_accession_no_struct_id
    (parse_header Sample.header_no_struct_id)
  = inr (<["ACCESSION" := ""]> Sample.human_no_struct_id_record)
  ∧ (<["ACCESSION" := ""]> Sample.human_no_struct_id_record) !! "ORGANISM"
    = Some default_species
  ∧ is_Some ((<["ACCESSION" := ""]> Sample.human_no_struct_id_record) !! "ACCESSION")
  ∧ (<["ACCESSION" := ""]> Sample.human_no_struct_id_record) !! "STRUCT_ID" = None
  ∧ run Sample.self default_species
        [Sample.header_no_struct_id; Sample.empty_accession_no_struct_id] Sample.no_files
    = (header_files Sample.self, inr tt).
Proof. vm_compute. repeat split; eauto. Qed.

(** C5, amended: a data row of the target organism whose ACCESSION field is
    present and not empty and whose record has no STRUCT_ID field raises
    [ItemInDictNotFound] before anything is written for it; nothing catches
    it, so the run ends there with that exception, whatever rows follow. *)
Theorem missing_struct_id_aborts_run
    self species header_line pre line rest d acc fs fs1 :
  loop self species (parse_header header_line) pre (header_files self) = (fs1, inr tt) →
  parse_drug_central_line line (parse_header header_line) = inr d →
  d !! "ORGANISM" = Some species →
  d !! "ACCESSION" = Some acc → acc ≠ "" →
  d !! "STRUCT_ID" = None →
  line_body self species (parse_header header_line) line fs1
    = (fs1, inl ItemInDictNotFound)
  ∧ run self species (header_line :: pre ++ line :: rest) fs
    = (fs1, inl ItemInDictNotFound).
Proof.
  intros Hpre Hd Horg Hacc Hne Hsid.
  assert (line_body self species (parse_header header_line) line fs1
          = (fs1, inl ItemInDictNotFound)) as Hline.
  { rewrite (line_body_parsed _ _ _ _ d) by done.
    eapply row_body_no_struct_id; eauto using get_item_absent. }
  split; [done|]. by eapply run_abort.
Qed.

Lemma missing_struct_id_aborts_run_witness :
  run Sample.self default_species
      [Sample.header_no_struct_id; Sample.human_no_struct_id; Sample.human_no_struct_id]
      Sample.no_files
  = (header_files Sample.self, inl ItemInDictNotFound).
Proof.
  refine (proj2 (missing_struct_id_aborts_run Sample.self default_species
    Sample.header_no_struct_id [] Sample.human_no_struct_id [Sample.human_no_struct_id]
    Sample.human_no_struct_id_record "P00001" Sample.no_files (header_files Sample.self)
    _ _ _ _ _ _)).
  - reflexivity.
  - vm_compute. reflexivity.
  - vm_compute. reflexivity.
  - vm_compute. reflexivity.
  - discriminate.
  - vm_compute. reflexivity.
Defined.

(** C6: a data line whose number of tab-separated fields, after the strip,
    differs from the number of header names yields no row record:
    [parse_drug_central_line] raises the data-shape error, nothing is written
    for the line, and the run ends there with that error. *)
Theorem field_count_mismatch_aborts_run
    self species header_line pre line rest fs fs1 :
  loop self species (parse_header header_line) pre (header_files self) = (fs1, inr tt) →
  length (PyStr.split PyStr.tab (PyStr.strip line)) ≠ length (parse_header header_line) →
  parse_drug_central_line line (parse_header header_line) = inl DataShapeError
  ∧ line_body self species (parse_header header_line) line fs1 = (fs1, inl DataShapeError)
  ∧ run self species (header_line :: pre ++ line :: rest) fs = (fs1, inl DataShapeError).
Proof.
  intros Hpre Hlen.
  assert (parse_drug_central_line line (parse_header header_line) = inl DataShapeError)
    as Hparse.
  { unfold parse_drug_central_line, data_to_dict. rewrite length_fmap.
    destruct (decide _) as [Heq|]; [|reflexivity]. by rewrite Heq in Hlen. }
  assert (line_body self species (parse_header header_line) line fs1
          = (fs1, inl DataShapeError)) as Hline.
  { unfold line_body. by apply bind_lift_inl. }
  repeat split; [done..|]. by eapply run_abort.
Qed.

Lemma field_count_mismatch_aborts_run_witness :
  run Sample.self default_species [Sample.header; Sample.short_row; Sample.human]
      Sample.no_files
  = (header_files Sample.self, inl DataShapeError).
Proof.
  refine (proj2 (proj2 (field_count_mismatch_aborts_run Sample.self default_species
    Sample.header [] Sample.short_row [Sample.human] Sample.no_files
    (header_files Sample.self) _ _))).
  - reflexivity.
  - vm_compute. lia.
Defined.

(** C7: a data line changes the output files only if it parses to a row
    record whose ORGANISM field equals the target organism and whose ACCESSION
    field is present and is not the empty string. *)
Theorem output_only_for_matching_rows self species header_items line fs fs' r :
  line_body self species header_items line fs = (fs', r) →
  fs' ≠ fs →
  ∃ d acc,
    parse_drug_central_line line header_items = inr d
    ∧ d !! "ORGANISM" = Some species
    ∧ d !! "ACCESSION" = Some acc ∧ acc ≠ "".
Proof.
  intros Hrun Hchanged. unfold line_body in Hrun.
  destruct (parse_drug_central_line line header_items) as [e|d] eqn:Hd.
  { rewrite (bind_lift_inl _ _ _ e) in Hrun by done. congruence. }
  rewrite (bind_lift_inr _ _ _ d) in Hrun by done.
  destruct (decide (d !! "ORGANISM" = Some species)) as [Horg|Horg]; last first.
  { rewrite row_body_other_organism in Hrun by done. congruence. }
  destruct (d !! "ACCESSION") as [acc|] eqn:Hacc; last first.
  { rewrite row_body_no_accession in Hrun by (by apply get_item_absent). congruence. }
  destruct (decide (acc = "")) as [->|Hne].
  { rewrite row_body_no_accession in Hrun by (by apply get_item_empty). congruence. }
  by exists d, acc.
Qed.

Lemma output_only_for_matching_rows_witness :
  ∃ d acc,
    parse_drug_central_line Sample.human (parse_header Sample.header) = inr d
    ∧ d !! "ORGANISM" = Some default_species
    ∧ d !! "ACCESSION" = Some acc ∧ acc ≠ "".
Proof.
  refine (output_only_for_matching_rows Sample.self default_species
    (parse_header Sample.header) Sample.human Sample.no_files
    (fst (line_body Sample.self default_species (parse_header Sample.header)
            Sample.human Sample.no_files))
    (inr tt) _ _).
  - vm_compute. reflexivity.
  - vm_compute. discriminate.
Defined.

(** ** The lines written for a row *)

Lemma write_node_edge_item_ok fh header data fs :
  length header = length data →
  write_node_edge_item fh header data fs = write fh (tsv_line data) fs.
Proof. intros H. unfold write_node_edge_item. by destruct (decide _). Qed.

Section Row.
Variable self : Transform.
Hypothesis node_header_3 : length (node_header self) = 3.
Variable d : gmap string string.
Variable drug_id : string.

Lemma gene_body_ok name comment gene_id fs :
  d !! "GENE" = Some name → d !! "ACT_COMMENT" = Some comment →
  gene_body self d drug_id gene_id fs
  = ({| node_file := node_file fs ++ [gene_node_line name gene_id];
        edge_file := edge_file fs ++ [gene_edge_line self drug_id comment gene_id] |}, inr tt).
Proof.
  intros Hg Hc. unfold gene_body, getitem. rewrite Hg, Hc.
  rewrite (bind_lift_inr _ _ _ name) by done.
  erewrite bind_inr; last by rewrite write_node_edge_item_ok.
  rewrite (bind_lift_inr _ _ _ comment) by done.
  by rewrite write_node_edge_item_ok.
Qed.

Lemma gene_body_no_gene gene_id fs :
  d !! "GENE" = None →
  gene_body self d drug_id gene_id fs = (fs, inl (KeyError "GENE")).
Proof.
  intros Hg. unfold gene_body, getitem. rewrite Hg. by apply bind_lift_inl.
Qed.

Lemma gene_body_no_comment name gene_id fs :
  d !! "GENE" = Some name → d !! "ACT_COMMENT" = None →
  gene_body self d drug_id gene_id fs
  = ({| node_file := node_file fs ++ [gene_node_line name gene_id];
        edge_file := edge_file fs |}, inl (KeyError "ACT_COMMENT")).
Proof.
  intros Hg Hc. unfold gene_body, getitem. rewrite Hg, Hc.
  rewrite (bind_lift_inr _ _ _ name) by done.
  erewrite bind_inr; last by rewrite write_node_edge_item_ok.
  by apply bind_lift_inl.
Qed.

Lemma for_each_gene_ok name comment gene_ids fs :
  d !! "GENE" = Some name → d !! "ACT_COMMENT" = Some comment →
  for_each gene_ids (gene_body self d drug_id) fs
  = ({| node_file := node_file fs ++ (gene_node_line name <$> gene_ids);
        edge_file := edge_file fs ++ (gene_edge_line self drug_id comment <$> gene_ids) |}, inr tt).
Proof.
  intros Hg Hc. revert fs.
  induction gene_ids as [|gene_id gene_ids IH]; intros fs.
  - destruct fs. simpl. by rewrite !app_nil_r.
  - rewrite for_each_cons, (gene_body_ok name comment) by done.
    rewrite IH. simpl. by rewrite <- !app_assoc.
Qed.
End Row.

Lemma split_cons sep s : ∃ w ws, PyStr.split sep s = w :: ws.
Proof.
  destruct s as [|c s]; simpl; [by eauto|].
  destruct (Ascii.eqb c sep); [by eauto|].
  destruct (PyStr.split sep s); by eauto.
Qed.

(** The part of [row_body] after the organism filter and the two lookups. *)
Lemma row_body_resolved self species d acc sid fs :
  d !! "ORGANISM" = Some species →
  d !! "ACCESSION" = Some acc → acc ≠ "" →
  d !! "STRUCT_ID" = Some sid → sid ≠ "" →
  row_body self species d fs
  = (drug_name ← lift (getitem d "DRUG_NAME");
     write_node_edge_item node (node_header self)
       [drug_curie_prefix +:+ sid; drug_name; drug_node_type] ;;
     for_each (PyStr.split PyStr.pipe acc)
       (gene_body self d (drug_curie_prefix +:+ sid))) fs.
Proof.
  intros Horg Hacc Hne Hsid Hne'. unfold row_body. rewrite Horg.
  destruct (decide (species ≠ species)) as [|_]; [done|].
  rewrite (get_item_present d "ACCESSION" acc) by done.
  by rewrite (bind_lift_inr _ _ _ sid) by by apply get_item_present.
Qed.

(** C2, amended: a row of the target organism whose ACCESSION, STRUCT_ID, DRUG_NAME,
    GENE and ACT_COMMENT fields resolve has its ACCESSION value split on the
    pipe character: the node file receives the drug line and then one gene
    line per accession, the edge file one edge line per accession.  For
    ACCESSION = P12345|Q67890 these are exactly two gene lines and two edge
    lines, the edges with the same drug subject, edge label, relation code,
    source and the comment of the row, and with the two gene identifiers as
    objects. *)
Theorem accession_split_on_pipe
    self species header_items line d acc sid name gene comment fs :
  length (node_header self) = 3 →
  parse_drug_central_line line header_items = inr d →
  d !! "ORGANISM" = Some species →
  d !! "ACCESSION" = Some acc → acc ≠ "" →
  d !! "STRUCT_ID" = Some sid → sid ≠ "" →
  d !! "DRUG_NAME" = Some name →
  d !! "GENE" = Some gene →
  d !! "ACT_COMMENT" = Some comment →
  line_body self species header_items line fs
  = ({| node_file :=
          node_file fs
          ++ tsv_line [drug_curie_prefix +:+ sid; name; drug_node_type]
             :: ((λ gene_id, tsv_line [gene_curie_prefix +:+ gene_id; gene; gene_node_type])
                   <$> PyStr.split PyStr.pipe acc);
        edge_file :=
          edge_file fs
          ++ ((λ gene_id,
                 tsv_line [drug_curie_prefix +:+ sid; drug_gene_edge_label;
                           gene_curie_prefix +:+ gene_id; drug_gene_edge_relation;
                           source_name self; comment])
                <$> PyStr.split PyStr.pipe acc) |}, inr tt)
  ∧ (acc = "P12345|Q67890" →
     line_body self species header_items line fs
     = ({| node_file :=
             node_file fs
             ++ [ tsv_line [drug_curie_prefix +:+ sid; name; drug_node_type];
                  tsv_line ["UniProtKB:P12345"; gene; gene_node_type];
                  tsv_line ["UniProtKB:Q67890"; gene; gene_node_type] ];
           edge_file :=
             edge_file fs
             ++ [ tsv_line [drug_curie_prefix +:+ sid; "biolink:interacts_with";
                            "UniProtKB:P12345"; "RO:0002436"; source_name self; comment];
                  tsv_line [drug_curie_prefix +:+ sid; "biolink:interacts_with";
                            "UniProtKB:Q67890"; "RO:0002436"; source_name self; comment] ]
        |}, inr tt)).
Proof.
  intros Hlen Hd Horg Hacc Hne Hsid Hne' Hname Hgene Hcomment.
  match goal with |- ?general ∧ _ => assert general as Hline end; last first.
  { split; [exact Hline|]. intros ->. exact Hline. }
  rewrite (line_body_parsed _ _ _ _ d) by done.
  rewrite (row_body_resolved _ _ _ acc sid) by done.
  unfold getitem. rewrite Hname.
  rewrite (bind_lift_inr _ _ _ name) by done.
  erewrite bind_inr; last by rewrite write_node_edge_item_ok.
  rewrite (for_each_gene_ok self Hlen d _ gene comment) by done.
  simpl. by rewrite <- !app_assoc.
Qed.

Lemma accession_split_on_pipe_witness :
  line_body Sample.self default_species (parse_header Sample.header) Sample.two_genes
    Sample.no_files
  = ({| node_file :=
          [ tsv_line ["DrugCentral:99"; "Foo"; "biolink:Drug"];
            tsv_line ["UniProtKB:P12345"; "BAR"; "biolink:Gene"];
            tsv_line ["UniProtKB:Q67890"; "BAR"; "biolink:Gene"] ];
        edge_file :=
          [ tsv_line ["DrugCentral:99"; "biolink:interacts_with"; "UniProtKB:P12345";
                      "RO:0002436"; "drug_central"; "inhibits"];
            tsv_line ["DrugCentral:99"; "biolink:interacts_with"; "UniProtKB:Q67890";
                      "RO:0002436"; "drug_central"; "inhibits"] ] |}, inr tt).
Proof.
  refine (proj2 (accession_split_on_pipe Sample.self default_species
    (parse_header Sample.header) Sample.two_genes Sample.two_genes_record
    "P12345|Q67890" "99" "Foo" "BAR" "inhibits" Sample.no_files
    _ _ _ _ _ _ _ _ _ _) _).
  - reflexivity.
  - vm_compute. reflexivity.
  - vm_compute. reflexivity.
  - vm_compute. reflexivity.
  - discriminate.
  - vm_compute. reflexivity.
  - discriminate.
  - vm_compute. reflexivity.
  - vm_compute. reflexivity.
  - vm_compute. reflexivity.
  - reflexivity.
Defined.

(** C2, as stated, fails: a row of the target organism whose ACCESSION field
    is P12345|Q67890 and whose record has no STRUCT_ID field writes no gene
    line and no edge line; its line ends the run with [ItemInDictNotFound]
    and the files hold the two header lines only. *)
Lemma two_accessions_without_struct_id_no_lines :
  parse_drug_central_line Sample.two_genes_no_struct_id
    (parse_header Sample.header_no_struct_id)
  = inr (<["ACCESSION" := "P12345|Q67890"]> Sample.human_no_struct_id_record)
  ∧ (<["ACCESSION" := "P12345|Q67890"]> Sample.human_no_struct_id_record) !! "ORGANISM"
    = Some default_species
  ∧ (<["ACCESSION" := "P12345|Q67890"]> Sample.human_no_struct_id_record) !! "ACCESSION"
    = Some "P12345|Q67890"
  ∧ (<["ACCESSION" := "P12345|Q67890"]> Sample.human_no_struct_id_record) !! "STRUCT_ID"
    = None
  ∧ line_body Sample.self default_species (parse_header Sample.header_no_struct_id)
      Sample.two_genes_no_struct_id Sample.no_files
    = (Sample.no_files, inl ItemInDictNotFound)
  ∧ run Sample.self default_species
        [Sample.header_no_struct_id; Sample.two_genes_no_struct_id] Sample.no_files
    = ({| node_file := [tsv_line ["id"; "name"; "category"]];
          edge_file := [tsv_line edge_header] |}, inl ItemInDictNotFound).
Proof. vm_compute. repeat split. Qed.

(** ** Header lines *)

Section Appends.
Context {A B : Type}.

Lemma appends_lift (r : result A) : appends (lift r).
Proof. intros fs. exists [], []. simpl. by rewrite !app_nil_r. Qed.

Lemma appends_ret (a : A) : appends (mret a).
Proof. apply (appends_lift (inr a)). Qed.

Lemma appends_raise (e : exn) : appends (@raise A e).
Proof. apply (appends_lift (inl e)). Qed.

Lemma appends_bind (m : M A) (k : A → M B) :
  appends m → (∀ a, appends (k a)) → appends (m ≫= k).
Proof.
  intros Hm Hk fs. destruct (Hm fs) as (n1 & e1 & Hn1 & He1 & HPn1 & HPe1).
  unfold mbind, M_bind, bind. destruct (m fs) as [fs1 [e|a]]; simpl in *.
  - by exists n1, e1.
  - destruct (Hk a fs1) as (n2 & e2 & Hn2 & He2 & HPn2 & HPe2).
    exists (n1 ++ n2), (e1 ++ e2).
    rewrite Hn2, He2, Hn1, He1, <- !app_assoc.
    repeat split; try done; by apply Forall_app.
Qed.
End Appends.

Lemma appends_write_node_item header data :
  data_node_chunk (tsv_line data) → appends (write_node_edge_item node header data).
Proof.
  intros Hdata. unfold write_node_edge_item.
  destruct (decide _); [|apply appends_raise].
  intros fs. exists [tsv_line data], []. simpl. rewrite app_nil_r.
  repeat split; by repeat first [apply Forall_nil_2 | apply Forall_cons_2].
Qed.

Lemma appends_write_edge_item header data :
  data_edge_chunk (tsv_line data) → appends (write_node_edge_item edge header data).
Proof.
  intros Hdata. unfold write_node_edge_item.
  destruct (decide _); [|apply appends_raise].
  intros fs. exists [], [tsv_line data]. simpl. rewrite app_nil_r.
  repeat split; by repeat first [apply Forall_nil_2 | apply Forall_cons_2].
Qed.

Lemma appends_for_each {A} (xs : list A) (body : A → M unit) :
  (∀ x, appends (body x)) → appends (for_each xs body).
Proof.
  intros Hbody. induction xs as [|x xs IH]; [apply appends_ret|].
  simpl. by apply appends_bind.
Qed.

Lemma appends_gene_body self d sid gene_id :
  appends (gene_body self d (drug_curie_prefix +:+ sid) gene_id).
Proof.
  unfold gene_body.
  apply appends_bind; [apply appends_lift|]. intros gene.
  apply appends_bind; [apply appends_write_node_item; right; reflexivity|]. intros _.
  apply appends_bind; [apply appends_lift|]. intros comment.
  apply appends_write_edge_item. reflexivity.
Qed.

Lemma appends_row_body self species d : appends (row_body self species d).
Proof.
  unfold row_body.
  destruct (d !! "ORGANISM") as [organism|]; [|apply appends_ret].
  destruct (decide _); [apply appends_ret|].
  destruct (get_item_by_priority d ["ACCESSION"]) as [e|acc].
  { destruct e; first [apply appends_ret | apply appends_raise]. }
  apply appends_bind; [apply appends_lift|]. intros sid.
  apply appends_bind; [apply appends_lift|]. intros name.
  apply appends_bind; [apply appends_write_node_item; left; reflexivity|]. intros _.
  apply appends_for_each. intros gene_id. apply appends_gene_body.
Qed.

Lemma appends_loop self species header_items lines :
  appends (loop self species header_items lines).
Proof.
  apply appends_for_each. intros line. unfold line_body.
  apply appends_bind; [apply appends_lift|]. intros d. apply appends_row_body.
Qed.

Lemma run_loop self species interactions fs :
  run self species interactions fs
  = loop self species (parse_header (readline interactions)) (tail interactions)
      (header_files self).
Proof. reflexivity. Qed.

(** C8: whatever the input, the node file starts with the line of the node
    header [id], [name], [category] and the edge file with the line of the
    edge header; split on tabs, these first lines are the two header lists.
    Every later chunk of either file is a data line (it starts with a CURIE
    prefix), so the header line is written once, before any data line. *)
Theorem header_line_first_and_once input_dir output_dir species interactions fs :
  ∃ nodes edges,
    let out := (run (DrugCentralTransform_init input_dir output_dir) species
                    interactions fs).1 in
    node_file out = tsv_line ["id"; "name"; "category"] :: nodes
    ∧ edge_file out
      = tsv_line ["subject"; "edge_label"; "object"; "relation"; "provided_by"; "comment"]
        :: edges
    ∧ PyStr.split PyStr.tab (PyStr.first_line (content (node_file out)))
      = ["id"; "name"; "category"]
    ∧ PyStr.split PyStr.tab (PyStr.first_line (content (edge_file out)))
      = ["subject"; "edge_label"; "object"; "relation"; "provided_by"; "comment"]
    ∧ Forall data_node_chunk nodes ∧ Forall data_edge_chunk edges
    ∧ (tsv_line ["id"; "name"; "category"] ∉ nodes)
    ∧ (tsv_line ["subject"; "edge_label"; "object"; "relation"; "provided_by"; "comment"]
       ∉ edges).
Proof.
  set (self := DrugCentralTransform_init input_dir output_dir).
  destruct (appends_loop self species (parse_header (readline interactions))
              (tail interactions) (header_files self))
    as (nodes & edges & Hn & He & HPn & HPe).
  exists nodes, edges. cbv zeta. rewrite run_loop, Hn, He.
  repeat split; try done.
  - intros Hin. rewrite Forall_forall in HPn.
    destruct (HPn _ Hin) as [H|H]; vm_compute in H; discriminate.
  - intros Hin. rewrite Forall_forall in HPe.
    specialize (HPe _ Hin). vm_compute in HPe. discriminate.
Qed.

(** ** Determinism *)

(** C9: the files a run leaves and the way it ends depend on the input
    lines, the transform object and the species only, not on what the output
    files held before: both are opened for writing, which truncates them.  A
    second run over the files the first one left gives the same file contents
    and the same result. *)
Theorem run_twice_same_files self species interactions fs fs' :
  run self species interactions fs = run self species interactions fs'
  ∧ (let first := run self species interactions fs in
     let second := run self species interactions first.1 in
     content (node_file second.1) = content (node_file first.1)
     ∧ content (edge_file second.1) = content (edge_file first.1)
     ∧ second.2 = first.2).
Proof.
  assert (∀ fs1 fs2, run self species interactions fs1 = run self species interactions fs2)
    as Hindep by (intros; by rewrite !run_loop).
  split; [apply Hindep|]. cbv zeta.
  by rewrite (Hindep (run self species interactions fs).1 fs).
Qed.

(** ** Missing name, gene and comment fields *)

(** C10, as stated, fails twice.  A row of the target organism with an
    ACCESSION field holding the empty string and no GENE field is skipped: the
    run returns normally.  A row of the target organism with an ACCESSION
    field and neither a GENE nor a STRUCT_ID field ends the run with
    [ItemInDictNotFound] before the drug line is written: the node file holds
    the header line only. *)
Lemma missing_gene_without_abort_or_drug_line :
  (parse_drug_central_line Sample.empty_accession_no_gene
     (parse_header Sample.header_no_gene)
   = inr (<["ACCESSION" := ""]> Sample.human_no_gene_record)
   ∧ (<["ACCESSION" := ""]> Sample.human_no_gene_record) !! "ORGANISM"
     = Some default_species
   ∧ (<["ACCESSION" := ""]> Sample.human_no_gene_record) !! "ACCESSION" = Some ""
   ∧ (<["ACCESSION" := ""]> Sample.human_no_gene_record) !! "GENE" = None
   ∧ run Sample.self default_species
         [Sample.header_no_gene; Sample.empty_accession_no_gene] Sample.no_files
     = (header_files Sample.self, inr tt))
  ∧ (parse_drug_central_line Sample.human_no_gene_no_struct_id
       (parse_header Sample.header_no_gene_no_struct_id)
     = inr (delete "STRUCT_ID" Sample.human_no_gene_record)
     ∧ delete "STRUCT_ID" Sample.human_no_gene_record !! "ORGANISM"
       = Some default_species
     ∧ delete "STRUCT_ID" Sample.human_no_gene_record !! "ACCESSION" = Some "P00001"
     ∧ delete "STRUCT_ID" Sample.human_no_gene_record !! "GENE" = None
     ∧ run Sample.self default_species
           [Sample.header_no_gene_no_struct_id; Sample.human_no_gene_no_struct_id]
           Sample.no_files
       = ({| node_file := [tsv_line ["id"; "name"; "category"]];
             edge_file := [tsv_line edge_header] |}, inl ItemInDictNotFound)).
Proof. vm_compute. repeat split. Qed.

(** C10, amended: take a row of the target organism whose ACCESSION and
    STRUCT_ID fields are present and not empty.  Without a DRUG_NAME field the
    run ends with [KeyError] and nothing is written for the row.  With a
    DRUG_NAME but no GENE field the run ends with [KeyError] after the drug
    line of the row is written.  With both but no ACT_COMMENT field the run
    ends with [KeyError] after the drug line and the gene line of the first
    accession are written; no edge line is written.  The row is not skipped:
    the rows after it are not read. *)
Theorem missing_field_aborts_run
    self species header_line pre line rest d acc sid fs fs1 :
  length (node_header self) = 3 →
  loop self species (parse_header header_line) pre (header_files self) = (fs1, inr tt) →
  parse_drug_central_line line (parse_header header_line) = inr d →
  d !! "ORGANISM" = Some species →
  d !! "ACCESSION" = Some acc → acc ≠ "" →
  d !! "STRUCT_ID" = Some sid → sid ≠ "" →
  (d !! "DRUG_NAME" = None →
   run self species (header_line :: pre ++ line :: rest) fs
   = (fs1, inl (KeyError "DRUG_NAME")))
  ∧ (∀ name, d !! "DRUG_NAME" = Some name → d !! "GENE" = None →
     run self species (header_line :: pre ++ line :: rest) fs
     = ({| node_file :=
             node_file fs1 ++ [tsv_line [drug_curie_prefix +:+ sid; name; drug_node_type]];
           edge_file := edge_file fs1 |}, inl (KeyError "GENE")))
  ∧ (∀ name gene, d !! "DRUG_NAME" = Some name → d !! "GENE" = Some gene →
     d !! "ACT_COMMENT" = None →
     ∃ first others,
       PyStr.split PyStr.pipe acc = first :: others
       ∧ run self species (header_line :: pre ++ line :: rest) fs
         = ({| node_file :=
                 node_file fs1
                 ++ [ tsv_line [drug_curie_prefix +:+ sid; name; drug_node_type];
                      tsv_line [gene_curie_prefix +:+ first; gene; gene_node_type] ];
               edge_file := edge_file fs1 |}, inl (KeyError "ACT_COMMENT"))).
Proof.
  intros Hlen Hpre Hd Horg Hacc Hne Hsid Hne'.
  assert (∀ fs2 e, row_body self species d fs1 = (fs2, inl e) →
            run self species (header_line :: pre ++ line :: rest) fs = (fs2, inl e))
    as Habort.
  { intros fs2 e Hrow. eapply run_abort; [done|].
    by rewrite (line_body_parsed _ _ _ _ d). }
  destruct (split_cons PyStr.pipe acc) as (first & others & Hsplit).
  repeat split.
  - intros Hname. apply Habort.
    rewrite (row_body_resolved _ _ _ acc sid) by done.
    unfold getitem. rewrite Hname. by apply bind_lift_inl.
  - intros name Hname Hgene. apply Habort.
    rewrite (row_body_resolved _ _ _ acc sid) by done.
    unfold getitem. rewrite Hname, (bind_lift_inr _ _ _ name) by done.
    erewrite bind_inr; last by rewrite write_node_edge_item_ok.
    rewrite Hsplit, for_each_cons. by rewrite gene_body_no_gene.
  - intros name gene Hname Hgene Hcomment. exists first, others.
    split; [done|]. apply Habort.
    rewrite (row_body_resolved _ _ _ acc sid) by done.
    unfold getitem. rewrite Hname, (bind_lift_inr _ _ _ name) by done.
    erewrite bind_inr; last by rewrite write_node_edge_item_ok.
    rewrite Hsplit, for_each_cons.
    rewrite (gene_body_no_comment self Hlen d _ gene) by done.
    simpl. by rewrite <- !app_assoc.
Qed.

Lemma missing_field_aborts_run_witness :
  run Sample.self default_species
      [Sample.header_no_gene; Sample.human_no_gene; Sample.human_no_gene] Sample.no_files
  = ({| node_file :=
          [ tsv_line ["id"; "name"; "category"];
            tsv_line ["DrugCentral:99"; "Foo"; "biolink:Drug"] ];
        edge_file := [tsv_line edge_header] |}, inl (KeyError "GENE")).
Proof.
  refine (proj1 (proj2 (missing_field_aborts_run Sample.self default_species
    Sample.header_no_gene [] Sample.human_no_gene [Sample.human_no_gene]
    Sample.human_no_gene_record "P00001" "99" Sample.no_files (header_files Sample.self)
    _ _ _ _ _ _ _ _)) "Foo" _ _).
  - reflexivity.
  - reflexivity.
  - vm_compute. reflexivity.
  - vm_compute. reflexivity.
  - vm_compute. reflexivity.
  - discriminate.
  - vm_compute. reflexivity.
  - discriminate.
  - vm_compute. reflexivity.
  - vm_compute. reflexivity.
Defined.

(** * Further properties of the source *)

(** ** Strings *)

Lemma append_nil_r s : s +:+ "" = s.
Proof.
  induction s as [|c s IH]; [done|].
  change (String c (s +:+ "") = String c s). by rewrite IH.
Qed.

Lemma append_assoc s1 s2 s3 : (s1 +:+ s2) +:+ s3 = s1 +:+ s2 +:+ s3.
Proof.
  induction s1 as [|c s1 IH]; [done|].
  change (String c ((s1 +:+ s2) +:+ s3) = String c (s1 +:+ s2 +:+ s3)). by rewrite IH.
Qed.

Lemma has_char_app c s1 s2 :
  has_char c (s1 +:+ s2) = has_char c s1 || has_char c s2.
Proof.
  induction s1 as [|a s1 IH]; [done|].
  change (Ascii.eqb a c || has_char c (s1 +:+ s2)
          = Ascii.eqb a c || has_char c s1 || has_char c s2).
  rewrite IH. by destruct (Ascii.eqb a c).
Qed.

Lemma lstrip_all_space ws : all_space ws = true → PyStr.lstrip ws = "".
Proof.
  induction ws as [|c ws IH]; simpl; [done|].
  intros [Hc Hws]%andb_prop. rewrite Hc. by apply IH.
Qed.

Lemma rstrip_all_space ws : all_space ws = true → PyStr.rstrip ws = "".
Proof.
  induction ws as [|c ws IH]; simpl; [done|].
  intros [Hc Hws]%andb_prop. by rewrite IH, Hc.
Qed.

Lemma rstrip_app_space s ws :
  all_space ws = true → PyStr.rstrip (s +:+ ws) = PyStr.rstrip s.
Proof.
  intros Hws. induction s as [|c s IH]; [by apply rstrip_all_space|].
  change (PyStr.rstrip (String c (s +:+ ws)) = PyStr.rstrip (String c s)).
  simpl. by rewrite IH.
Qed.

Lemma lstrip_space_app ws s :
  all_space ws = true → PyStr.lstrip (ws +:+ s) = PyStr.lstrip s.
Proof.
  induction ws as [|c ws IH]; [done|].
  change (all_space (String c ws) = true
          → PyStr.lstrip (String c (ws +:+ s)) = PyStr.lstrip s).
  simpl. intros [Hc Hws]%andb_prop. rewrite Hc. by apply IH.
Qed.

Lemma strip_app_space s ws :
  all_space ws = true → PyStr.strip (s +:+ ws) = PyStr.strip s.
Proof.
  intros Hws. unfold PyStr.strip.
  induction s as [|c s IH].
  - change ("" +:+ ws) with ws. by rewrite lstrip_all_space.
  - change (String c s +:+ ws) with (String c (s +:+ ws)). simpl.
    destruct (PyStr.isspace c); [done|].
    change (String c (s +:+ ws)) with (String c s +:+ ws).
    by apply rstrip_app_space.
Qed.

Lemma strip_space_app ws s :
  all_space ws = true → PyStr.strip (ws +:+ s) = PyStr.strip s.
Proof. intros Hws. unfold PyStr.strip. by rewrite lstrip_space_app. Qed.

Lemma join_snoc_empty sep l :
  l ≠ [] → PyStr.join sep (l ++ [""]) = PyStr.join sep l +:+ sep.
Proof.
  induction l as [|x l IH]; [done|]. intros _.
  destruct l as [|y l].
  - simpl. by rewrite append_nil_r.
  - change (PyStr.join sep ((x :: y :: l) ++ [""]))
      with (x +:+ sep +:+ PyStr.join sep ((y :: l) ++ [""])).
    rewrite IH by done.
    change (PyStr.join sep (x :: y :: l)) with (x +:+ sep +:+ PyStr.join sep (y :: l)).
    by rewrite !append_assoc.
Qed.

Lemma has_char_cons c a s :
  has_char c (String a s) = false ↔ Ascii.eqb a c = false ∧ has_char c s = false.
Proof. simpl. apply orb_false_iff. Qed.

Lemma split_no_sep sep w : has_char sep w = false → PyStr.split sep w = [w].
Proof.
  induction w as [|a w IH]; [done|].
  intros [Ha Hw]%has_char_cons. simpl. by rewrite Ha, IH.
Qed.

Lemma split_app_sep sep w rest :
  has_char sep w = false →
  PyStr.split sep (w +:+ String sep rest) = w :: PyStr.split sep rest.
Proof.
  induction w as [|a w IH].
  - intros _. change ("" +:+ String sep rest) with (String sep rest).
    simpl. by rewrite Ascii.eqb_refl.
  - intros [Ha Hw]%has_char_cons.
    change (String a w +:+ String sep rest) with (String a (w +:+ String sep rest)).
    simpl. by rewrite Ha, IH.
Qed.

(** Splitting a joined list gives the list back when no value holds the
    separator. *)
Lemma split_join sep l :
  l ≠ [] → Forall (λ w, has_char sep w = false) l →
  PyStr.split sep (PyStr.join (String sep "") l) = l.
Proof.
  induction l as [|x l IH]; [done|]. intros _ [Hx Hl]%Forall_cons.
  destruct l as [|y l]; [by apply split_no_sep|].
  change (PyStr.join (String sep "") (x :: y :: l))
    with (x +:+ String sep (PyStr.join (String sep "") (y :: l))).
  rewrite split_app_sep by done. by rewrite IH.
Qed.

Lemma split_Forall_no_sep sep s :
  Forall (λ w, has_char sep w = false) (PyStr.split sep s).
Proof.
  induction s as [|c s IH]; simpl; [by repeat constructor|].
  destruct (Ascii.eqb c sep) eqn:Hc; [by constructor|].
  destruct (PyStr.split sep s) as [|w ws].
  { constructor; [by apply has_char_cons|constructor]. }
  apply Forall_cons in IH as [Hw Hws]. constructor; [|done].
  by apply has_char_cons.
Qed.

Lemma split_Forall_preserve a sep s :
  has_char a s = false → Forall (λ w, has_char a w = false) (PyStr.split sep s).
Proof.
  induction s as [|c s IH]; [by repeat constructor|].
  intros [Hc Hs]%has_char_cons. specialize (IH Hs). simpl.
  destruct (Ascii.eqb c sep); [by constructor|].
  destruct (PyStr.split sep s) as [|w ws].
  { constructor; [by apply has_char_cons|constructor]. }
  apply Forall_cons in IH as [Hw Hws]. constructor; [|done].
  by apply has_char_cons.
Qed.

Lemma remove_char_has c s : has_char c (PyStr.remove_char c s) = false.
Proof.
  induction s as [|a s IH]; [done|]. simpl.
  destruct (Ascii.eqb a c) eqn:Ha; [done|]. by apply has_char_cons.
Qed.

Lemma remove_char_preserve a c s :
  has_char a s = false → has_char a (PyStr.remove_char c s) = false.
Proof.
  induction s as [|b s IH]; [done|].
  intros [Hb Hs]%has_char_cons. simpl.
  destruct (Ascii.eqb b c); [by apply IH|]. apply has_char_cons. auto.
Qed.

Lemma has_char_join c sep l :
  has_char c sep = false → Forall (λ v, has_char c v = false) l →
  has_char c (PyStr.join sep l) = false.
Proof.
  intros Hsep. induction l as [|x l IH]; [done|]. intros [Hx Hl]%Forall_cons.
  destruct l as [|y l]; [done|].
  change (PyStr.join sep (x :: y :: l)) with (x +:+ sep +:+ PyStr.join sep (y :: l)).
  by rewrite !has_char_app, Hx, Hsep, IH.
Qed.

Lemma isspace_newline c :
  Ascii.eqb c PyStr.newline = true → PyStr.isspace c = true.
Proof. intros ->%Ascii.eqb_eq. reflexivity. Qed.

Lemma text_line_tail c s : text_line (String c s) = true → text_line s = true.
Proof.
  destruct s as [|c' s]; [done|].
  change (negb (Ascii.eqb c PyStr.newline) && text_line (String c' s) = true
          → text_line (String c' s) = true).
  by intros [_ H]%andb_prop.
Qed.

Lemma text_line_lstrip s : text_line s = true → text_line (PyStr.lstrip s) = true.
Proof.
  induction s as [|c s IH]; [done|]. intros H.
  change (PyStr.lstrip (String c s))
    with (if PyStr.isspace c then PyStr.lstrip s else String c s).
  destruct (PyStr.isspace c); [|done]. apply IH. by apply (text_line_tail c).
Qed.

Lemma text_line_rstrip s :
  text_line s = true → has_char PyStr.newline (PyStr.rstrip s) = false.
Proof.
  induction s as [|c s IH]; [done|]. intros H.
  change (PyStr.rstrip (String c s))
    with (match PyStr.rstrip s with
          | EmptyString => if PyStr.isspace c then EmptyString else String c EmptyString
          | String a r => String c (String a r)
          end).
  destruct s as [|c' s].
  - change (PyStr.rstrip "") with "".
    destruct (PyStr.isspace c) eqn:Hc; [done|].
    apply has_char_cons. split; [|done].
    destruct (Ascii.eqb c PyStr.newline) eqn:Hn; [|done].
    apply isspace_newline in Hn. congruence.
  - change (negb (Ascii.eqb c PyStr.newline) && text_line (String c' s) = true) in H.
    apply andb_prop in H as [Hc H]. specialize (IH H).
    assert (Ascii.eqb c PyStr.newline = false) as Hc'
      by (by destruct (Ascii.eqb c PyStr.newline)).
    destruct (PyStr.rstrip (String c' s)) as [|a r].
    + destruct (PyStr.isspace c); [done|]. by apply has_char_cons.
    + by apply has_char_cons.
Qed.

(** The strip of a line of a text file holds no line feed. *)
Lemma text_line_strip s :
  text_line s = true → has_char PyStr.newline (PyStr.strip s) = false.
Proof. intros H. unfold PyStr.strip. by apply text_line_rstrip, text_line_lstrip. Qed.

(** ** Row records *)

Lemma zip_to_dict_values (P : string → Prop) ks vs acc :
  map_Forall (λ _, P) acc → Forall P vs → map_Forall (λ _, P) (zip_to_dict ks vs acc).
Proof.
  revert vs acc. induction ks as [|k ks IH]; intros vs acc Hacc Hvs; [done|].
  destruct vs as [|v vs]; [done|]. apply Forall_cons in Hvs as [Hv Hvs].
  simpl. apply IH; [|done]. by apply map_Forall_insert_2.
Qed.


(** The values of a row record hold no tab and no double quote. *)
Lemma parse_values_clean line header_items d k v :
  parse_drug_central_line line header_items = inr d →
  d !! k = Some v →
  has_char PyStr.tab v = false ∧ has_char PyStr.dquote v = false.
Proof.
  unfold parse_drug_central_line, data_to_dict. destruct (decide _); [|done].
  intros [= <-] Hk. revert k v Hk.
  apply (zip_to_dict_values
    (λ v, has_char PyStr.tab v = false ∧ has_char PyStr.dquote v = false)).
  { intros k v Hk. by rewrite lookup_empty in Hk. }
  apply Forall_fmap.
  eapply Forall_impl; [apply (split_Forall_no_sep PyStr.tab)|].
  intros w Hw. simpl. split; [by apply remove_char_preserve|apply remove_char_has].
Qed.


(** A character that the stripped line does not hold is in no value of the
    row record. *)
Lemma parse_values_preserve a line header_items d k v :
  has_char a (PyStr.strip line) = false →
  parse_drug_central_line line header_items = inr d →
  d !! k = Some v → has_char a v = false.
Proof.
  intros Ha. unfold parse_drug_central_line, data_to_dict. destruct (decide _); [|done].
  intros [= <-] Hk. revert k v Hk.
  apply (zip_to_dict_values (λ v, has_char a v = false)).
  { intros k v Hk. by rewrite lookup_empty in Hk. }
  apply Forall_fmap.
  eapply Forall_impl; [by apply (split_Forall_preserve a PyStr.tab)|].
  intros w Hw. simpl. by apply remove_char_preserve.
Qed.

(** ** Whitespace around a line *)

(** X1: whitespace before and after a data line, its line end included, does
    not reach the row record: the line is stripped before it is split. *)
Theorem outer_whitespace_ignored before line after header_items :
  all_space before = true → all_space after = true →
  parse_drug_central_line (before +:+ line +:+ after) header_items
  = parse_drug_central_line line header_items.
Proof.
  intros Hb Ha. unfold parse_drug_central_line.
  by rewrite strip_space_app, strip_app_space.
Qed.

Lemma outer_whitespace_ignored_witness :
  parse_drug_central_line (" " +:+ "99" +:+ TAB +:+ "Foo" +:+ (" " +:+ NL))
    ["STRUCT_ID"; "DRUG_NAME"]
  = parse_drug_central_line ("99" +:+ TAB +:+ "Foo") ["STRUCT_ID"; "DRUG_NAME"].
Proof.
  apply (outer_whitespace_ignored " " ("99" +:+ TAB +:+ "Foo") (" " +:+ NL)); reflexivity.
Defined.

(** X2: an empty last field is lost: the tab before it is trailing
    whitespace, so the line parses like the line without that field. *)
Theorem trailing_empty_field_dropped values header_items :
  values ≠ [] →
  parse_drug_central_line (tsv_line (values ++ [""])) header_items
  = parse_drug_central_line (tsv_line values) header_items.
Proof.
  intros Hne.
  assert (∀ line ws, all_space ws = true →
            parse_drug_central_line (line +:+ ws) header_items
            = parse_drug_central_line line header_items) as Hspace.
  { intros line ws Hws. unfold parse_drug_central_line. by rewrite strip_app_space. }
  unfold tsv_line. rewrite join_snoc_empty, append_assoc by done.
  by rewrite !Hspace.
Qed.

Lemma trailing_empty_field_dropped_witness :
  parse_drug_central_line (tsv_line (["99"; "Foo"] ++ [""])) ["STRUCT_ID"; "DRUG_NAME"]
  = parse_drug_central_line (tsv_line ["99"; "Foo"]) ["STRUCT_ID"; "DRUG_NAME"].
Proof. apply (trailing_empty_field_dropped ["99"; "Foo"]). discriminate. Defined.

(** ** Reasoning with pre- and postconditions *)

Section Hoare.
Context {A B : Type}.

Lemma hoare_bind (P : files → Prop) (m : M A) (Q : A → files → Prop)
    (k : A → M B) (R : B → files → Prop) (E : exn → files → Prop) :
  hoare P m Q E → (∀ a, hoare (Q a) (k a) R E) → hoare P (m ≫= k) R E.
Proof.
  intros Hm Hk fs HP. specialize (Hm fs HP).
  unfold mbind, M_bind, bind. destruct (m fs) as [fs' [e|a]]; [done|].
  by apply Hk.
Qed.

Lemma hoare_lift (P : files → Prop) (r : result A) (Q : A → files → Prop)
    (E : exn → files → Prop) :
  (∀ a fs, r = inr a → P fs → Q a fs) →
  (∀ e fs, r = inl e → P fs → E e fs) →
  hoare P (lift r) Q E.
Proof. intros HQ HE fs HP. unfold lift. destruct r; eauto. Qed.

Lemma hoare_ret (P : files → Prop) (a : A) (Q : A → files → Prop)
    (E : exn → files → Prop) :
  (∀ fs, P fs → Q a fs) → hoare P (ret a) Q E.
Proof. intros HQ fs HP. by apply HQ. Qed.

Lemma hoare_raise (P : files → Prop) (e : exn) (Q : A → files → Prop)
    (E : exn → files → Prop) :
  (∀ fs, P fs → E e fs) → hoare P (raise e) Q E.
Proof. intros HE fs HP. by apply HE. Qed.
End Hoare.

Lemma hoare_for_each {A} (P : files → Prop) (xs : list A) (body : A → M unit)
    (E : exn → files → Prop) :
  (∀ x, hoare P (body x) (λ _, P) E) → hoare P (for_each xs body) (λ _, P) E.
Proof.
  intros Hbody. induction xs as [|x xs IH]; [by apply hoare_ret|].
  simpl. eapply hoare_bind; [apply Hbody|]. intros ?. apply IH.
Qed.

Lemma hoare_write_item fh header data (P : files → Prop) (Q : unit → files → Prop)
    (E : exn → files → Prop) :
  (∀ fs, P fs → length header = length data → Q tt (written fh (tsv_line data) fs)) →
  (∀ fs, P fs → length header ≠ length data → E HeaderDataLengthError fs) →
  hoare P (write_node_edge_item fh header data) Q E.
Proof.
  intros HQ HE fs HP. unfold write_node_edge_item.
  destruct (decide _) as [Hlen|Hlen]; [|by apply HE].
  specialize (HQ fs HP Hlen). by destruct fh.
Qed.

Lemma get_item_inr d keys v :
  get_item_by_priority d keys = inr v → ∃ k, k ∈ keys ∧ d !! k = Some v ∧ v ≠ "".
Proof.
  induction keys as [|k keys IH]; [done|]. simpl.
  destruct (d !! k) as [w|] eqn:Hk.
  - destruct (decide (w = "")) as [|Hne].
    + intros (k' & ? & ?)%IH. exists k'. split; [by constructor|done].
    + intros [= <-]. exists k. split; [by constructor|done].
  - intros (k' & ? & ?)%IH. exists k'. split; [by constructor|done].
Qed.

Lemma get_item_inl d keys e :
  get_item_by_priority d keys = inl e → e = ItemInDictNotFound.
Proof.
  induction keys as [|k keys IH]; simpl; [congruence|].
  destruct (d !! k) as [w|]; [|done]. by destruct (decide (w = "")).
Qed.

Lemma parse_inl line header_items e :
  parse_drug_central_line line header_items = inl e → e = DataShapeError.
Proof.
  unfold parse_drug_central_line, data_to_dict. destruct (decide _); [done|].
  congruence.
Qed.

(** A schema for [row_body]: what holds before the row holds after the
    filter and the lookups, and the three steps that follow keep what the
    caller asks for. *)
Lemma hoare_row_body self species d (P : files → Prop) (E : exn → files → Prop)
    (J : string → string → files → Prop) :
  (∀ fs, P fs → E ItemInDictNotFound fs) →
  (∀ fs, P fs → E (KeyError "DRUG_NAME") fs) →
  (∀ acc sid name,
     d !! "ORGANISM" = Some species →
     d !! "ACCESSION" = Some acc → acc ≠ "" →
     d !! "STRUCT_ID" = Some sid → d !! "DRUG_NAME" = Some name →
     hoare P
       (write_node_edge_item node (node_header self)
          [drug_curie_prefix +:+ sid; name; drug_node_type])
       (λ _, J acc sid) E
     ∧ (∀ gene_id, gene_id ∈ PyStr.split PyStr.pipe acc →
        hoare (J acc sid) (gene_body self d (drug_curie_prefix +:+ sid) gene_id)
          (λ _, J acc sid) E)
     ∧ (∀ fs, J acc sid fs → P fs)) →
  hoare P (row_body self species d) (λ _, P) E.
Proof.
  intros HE1 HE2 Hsteps. unfold row_body.
  destruct (d !! "ORGANISM") as [organism|] eqn:Horg; [|by apply hoare_ret].
  destruct (decide (organism ≠ species)) as [|Heq]; [by apply hoare_ret|].
  assert (organism = species) as -> by (by destruct (decide (organism = species))).
  destruct (get_item_by_priority d ["ACCESSION"]) as [e|acc] eqn:Hacc.
  { apply get_item_inl in Hacc as ->. by apply hoare_ret. }
  apply get_item_inr in Hacc as (k & ->%list_elem_of_singleton & Hacc & Hne).
  eapply hoare_bind.
  { apply (hoare_lift P _ (λ sid fs, P fs ∧ d !! "STRUCT_ID" = Some sid)).
    - intros sid fs (k & ->%list_elem_of_singleton & Hsid & _)%get_item_inr HP. done.
    - intros e fs ->%get_item_inl HP. by apply HE1. }
  intros sid. cbv zeta.
  eapply hoare_bind.
  { apply (hoare_lift _ _ (λ name fs, P fs ∧ d !! "STRUCT_ID" = Some sid
                                      ∧ d !! "DRUG_NAME" = Some name)).
    - unfold getitem. intros name fs Hname [HP Hsid].
      destruct (d !! "DRUG_NAME"); by simplify_eq.
    - unfold getitem. intros e fs Hname [HP Hsid].
      destruct (d !! "DRUG_NAME"); simplify_eq. by apply HE2. }
  intros name fs0 (HP & Hsid & Hname). revert fs0 HP.
  destruct (Hsteps acc sid name) as (Hdrug & Hgene & Hback); [done..|].
  change (hoare P
    (write_node_edge_item node (node_header self)
       [drug_curie_prefix +:+ sid; name; drug_node_type] ≫=
     λ _, for_each (PyStr.split PyStr.pipe acc)
            (gene_body self d (drug_curie_prefix +:+ sid)))
    (λ _, P) E).
  eapply hoare_bind; [apply Hdrug|]. intros ?.
  intros fs HJ.
  assert (∀ l, (∀ g, g ∈ l → g ∈ PyStr.split PyStr.pipe acc) →
            hoare (J acc sid) (for_each l (gene_body self d (drug_curie_prefix +:+ sid)))
              (λ _, J acc sid) E) as Hloop.
  { induction l as [|g l IH]; intros Hl; [by apply hoare_ret|].
    simpl. eapply hoare_bind; [apply Hgene, Hl; by constructor|].
    intros ?. apply IH. intros g' Hg'. apply Hl. by constructor. }
  specialize (Hloop _ (λ g Hg, Hg) fs HJ).
  destruct (for_each _ _ fs) as [fs' [e|[]]]; [done|]. by apply Hback.
Qed.

Lemma hoare_gene_body self d drug_id gene_id (J : files → Prop)
    (K : string → files → Prop) (E : exn → files → Prop) :
  (∀ fs, J fs → E (KeyError "GENE") fs) →
  (∀ gene fs, K gene fs → E (KeyError "ACT_COMMENT") fs) →
  (∀ gene, d !! "GENE" = Some gene →
     hoare J
       (write_node_edge_item node (node_header self)
          [gene_curie_prefix +:+ gene_id; gene; gene_node_type])
       (λ _, K gene) E) →
  (∀ gene comment, d !! "GENE" = Some gene → d !! "ACT_COMMENT" = Some comment →
     hoare (K gene)
       (write_node_edge_item edge edge_header
          [drug_id; drug_gene_edge_label; gene_curie_prefix +:+ gene_id;
           drug_gene_edge_relation; source_name self; comment])
       (λ _, J) E) →
  hoare J (gene_body self d drug_id gene_id) (λ _, J) E.
Proof.
  intros HE1 HE2 Hnode Hedge. unfold gene_body, getitem.
  destruct (d !! "GENE") as [gene|] eqn:Hgene; last first.
  { apply (hoare_bind _ _ (λ _ _, False)); [|by intros a fs []].
    apply hoare_lift; [done|]. intros e fs [= <-]. apply HE1. }
  eapply hoare_bind.
  { apply (hoare_lift J _ (λ a fs, J fs ∧ a = gene)); [|done].
    by intros a fs [= <-] HJ. }
  intros a fs0 [HJ ->]. revert fs0 HJ.
  change (hoare J
    (write_node_edge_item node (node_header self)
       [gene_curie_prefix +:+ gene_id; gene; gene_node_type] ≫=
     λ _, lift (match d !! "ACT_COMMENT" with
                | Some v => inr v
                | None => inl (KeyError "ACT_COMMENT")
                end) ≫=
     λ act_comment,
       write_node_edge_item edge edge_header
         [drug_id; drug_gene_edge_label; gene_curie_prefix +:+ gene_id;
          drug_gene_edge_relation; source_name self; act_comment])
    (λ _, J) E).
  eapply hoare_bind; [by apply Hnode|]. intros ?.
  destruct (d !! "ACT_COMMENT") as [comment|] eqn:Hcomment; last first.
  { apply (hoare_bind _ _ (λ _ _, False)); [|by intros c fs []].
    apply hoare_lift; [done|]. intros e fs [= <-]. apply HE2. }
  eapply hoare_bind.
  { apply (hoare_lift (K gene) _ (λ c fs, K gene fs ∧ c = comment)); [|done].
    by intros c fs [= <-] HK. }
  intros c fs0 [HK ->]. revert fs0 HK. by apply Hedge.
Qed.

Lemma hoare_run self species interactions fs (P : files → Prop)
    (E : exn → files → Prop) :
  P (header_files self) →
  (∀ fs, P fs → E DataShapeError fs) →
  (∀ line d,
     parse_drug_central_line line (parse_header (readline interactions)) = inr d →
     hoare P (row_body self species d) (λ _, P) E) →
  match run self species interactions fs with
  | (fs', inr _) => P fs'
  | (fs', inl e) => E e fs'
  end.
Proof.
  intros Hinit HE Hrow. rewrite run_loop. unfold loop.
  apply (hoare_for_each P); [|done].
  intros line. unfold line_body.
  destruct (parse_drug_central_line line _) as [e|d] eqn:Hd.
  - apply parse_inl in Hd as ->. intros fs0 HP. by apply HE.
  - intros fs0 HP. by apply (Hrow line d).
Qed.

Lemma hoare_for_each_in {A} (P : files → Prop) (xs : list A) (body : A → M unit)
    (E : exn → files → Prop) :
  (∀ x, x ∈ xs → hoare P (body x) (λ _, P) E) →
  hoare P (for_each xs body) (λ _, P) E.
Proof.
  induction xs as [|x xs IH]; intros Hbody; [by apply hoare_ret|].
  simpl. eapply hoare_bind; [apply Hbody; by constructor|]. intros ?. apply IH.
  intros y Hy. apply Hbody. by constructor.
Qed.

(** [hoare_run] with the rows known to be lines of the input. *)
Lemma hoare_run_in self species interactions fs (P : files → Prop)
    (E : exn → files → Prop) :
  P (header_files self) →
  (∀ fs, P fs → E DataShapeError fs) →
  (∀ line d,
     line ∈ interactions →
     parse_drug_central_line line (parse_header (readline interactions)) = inr d →
     hoare P (row_body self species d) (λ _, P) E) →
  match run self species interactions fs with
  | (fs', inr _) => P fs'
  | (fs', inl e) => E e fs'
  end.
Proof.
  intros Hinit HE Hrow. rewrite run_loop. unfold loop.
  apply (hoare_for_each_in P); [|done].
  intros line Hin. unfold line_body.
  assert (line ∈ interactions) as Hin'.
  { clear -Hin. destruct interactions as [|h t]; [by apply elem_of_nil in Hin|].
    by constructor. }
  destruct (parse_drug_central_line line _) as [e|d] eqn:Hd.
  - apply parse_inl in Hd as ->. intros fs0 HP. by apply HE.
  - intros fs0 HP. by apply (Hrow line d).
Qed.

(** ** Every edge has its two nodes *)

Lemma edge_with_nodes_mono self nodes more chunk :
  edge_with_nodes self nodes chunk → edge_with_nodes self (nodes ++ more) chunk.
Proof.
  intros (sid & gid & dn & gn & c & -> & Hd & Hg).
  exists sid, gid, dn, gn, c. repeat split; apply elem_of_app; by left.
Qed.

Lemma edges_linked_node self fs s :
  edges_linked self fs → edges_linked self (written node s fs).
Proof. intros H chunk Hin. apply edge_with_nodes_mono. by apply H. Qed.

Lemma edges_linked_edge self fs s :
  edges_linked self fs → edge_with_nodes self (node_file fs) s →
  edges_linked self (written edge s fs).
Proof.
  intros H Hs chunk Hin. simpl in *.
  destruct (edge_file fs) as [|h l] eqn:Hl; simpl in Hin.
  { by apply elem_of_nil in Hin. }
  apply elem_of_app in Hin as [Hin| ->%list_elem_of_singleton]; [|done].
  apply H. by rewrite Hl.
Qed.

Lemma row_body_edges_linked self species d :
  hoare (edges_linked self) (row_body self species d)
    (λ _, edges_linked self) (λ _, edges_linked self).
Proof.
  apply (hoare_row_body self species d _ _ (λ _ sid, drug_written self sid));
    [done..|].
  intros acc sid name _ _ _ _ _. repeat split.
  - apply hoare_write_item; [|done]. intros fs H _. split.
    + by apply edges_linked_node.
    + exists name. apply elem_of_app. right. by constructor.
  - intros gene_id _.
    apply (hoare_gene_body self d _ gene_id _
      (λ gene fs, drug_written self sid fs
         ∧ tsv_line [gene_curie_prefix +:+ gene_id; gene; gene_node_type]
           ∈ node_file fs)).
    + by intros fs [H _].
    + by intros gene fs [[H _] _].
    + intros gene _. apply hoare_write_item; [|by intros fs [H _] _].
      intros fs [H [name' Hname']] _. repeat split.
      * by apply edges_linked_node.
      * exists name'. apply elem_of_app. by left.
      * apply elem_of_app. right. by constructor.
    + intros gene comment _ _.
      apply hoare_write_item; [|by intros fs [[H _] _] _].
      intros fs [[H [name' Hname']] Hgene] _. split; [|by exists name'].
      apply edges_linked_edge; [done|].
      by exists sid, gene_id, name', gene, comment.
  - by intros fs [H _].
Qed.

(** X3: in the files of any run, ended normally or by an exception, every
    edge line has the form drug, label, gene, relation, source, comment, and
    the node file holds a drug line with the edge's subject as id and a gene
    line with the edge's object as id. *)
Theorem edges_have_nodes self species interactions fs :
  let out := (run self species interactions fs).1 in
  Forall (edge_with_nodes self (node_file out)) (drop 1 (edge_file out)).
Proof.
  cbv zeta. apply Forall_forall.
  pose proof (hoare_run self species interactions fs
                (edges_linked self) (λ _, edges_linked self)) as Hrun.
  assert (edges_linked self (run self species interactions fs).1) as Hlinked.
  { destruct (run self species interactions fs) as [fs' [e|[]]]; simpl;
      (apply Hrun; [by intros chunk Hin%elem_of_nil|done|]);
      intros line d _; apply row_body_edges_linked. }
  exact Hlinked.
Qed.

(** ** Every written line has the columns of its header *)

Lemma has_char_app_false c s1 s2 :
  has_char c s1 = false → has_char c s2 = false → has_char c (s1 +:+ s2) = false.
Proof. intros H1 H2. by rewrite has_char_app, H1, H2. Qed.

Lemma tsv_row_split n chunk :
  tsv_row n chunk →
  ∃ values, chunk = tsv_line values ∧ length values = n
            ∧ has_char PyStr.newline (PyStr.join TAB values) = false
            ∧ (n ≠ 0 → PyStr.split PyStr.tab (PyStr.join TAB values) = values).
Proof.
  intros (values & -> & Hlen & Hclean). exists values.
  split; [done|]. split; [done|]. split.
  - apply has_char_join; [done|]. eapply Forall_impl; [done|]. by intros v [_ H].
  - intros Hn. apply split_join; [intros ->; by apply Hn|].
    eapply Forall_impl; [done|]. by intros v [H _].
Qed.

Lemma all_tsv_rows_written fh values fs :
  all_tsv_rows fs →
  length values = (match fh with node => 3 | edge => 6 end) →
  Forall (λ v, has_char PyStr.tab v = false ∧ has_char PyStr.newline v = false) values →
  all_tsv_rows (written fh (tsv_line values) fs).
Proof.
  intros [Hn He] Hlen Hclean. destruct fh; split; simpl; try done.
  - apply Forall_app. split; [done|]. constructor; [|constructor]. by exists values.
  - apply Forall_app. split; [done|]. constructor; [|constructor]. by exists values.
Qed.

Lemma row_body_tsv_rows self species d :
  has_char PyStr.tab (source_name self) = false →
  has_char PyStr.newline (source_name self) = false →
  map_Forall (λ _ v, has_char PyStr.tab v = false
                     ∧ has_char PyStr.newline v = false) d →
  hoare all_tsv_rows (row_body self species d) (λ _, all_tsv_rows) (λ _, all_tsv_rows).
Proof.
  intros Hsource Hsource' Hd.
  apply (hoare_row_body self species d _ _
           (λ acc sid fs, all_tsv_rows fs)); [done..|].
  intros acc sid name _ Hacc _ Hsid Hname.
  assert (has_char PyStr.tab (drug_curie_prefix +:+ sid) = false
          ∧ has_char PyStr.newline (drug_curie_prefix +:+ sid) = false) as Hdrug.
  { destruct (Hd _ _ Hsid). split; by apply has_char_app_false. }
  split; [|split; [|done]].
  - apply hoare_write_item; [|done]. intros fs H _.
    apply (all_tsv_rows_written node); [done..|].
    repeat first [apply Forall_nil_2 | apply Forall_cons_2]; try done.
    by apply (Hd _ _ Hname).
  - intros gene_id Hgene_id.
    assert (has_char PyStr.tab (gene_curie_prefix +:+ gene_id) = false
            ∧ has_char PyStr.newline (gene_curie_prefix +:+ gene_id) = false) as Hgene.
    { destruct (Hd _ _ Hacc) as [Ht Hn].
      pose proof (split_Forall_preserve PyStr.tab PyStr.pipe acc Ht) as Hall.
      pose proof (split_Forall_preserve PyStr.newline PyStr.pipe acc Hn) as Hall'.
      rewrite Forall_forall in Hall. rewrite Forall_forall in Hall'.
      split; apply has_char_app_false; auto. }
    apply (hoare_gene_body self d _ gene_id _ (λ _, all_tsv_rows)); [done..| |].
    + intros gene Hg. apply hoare_write_item; [|done]. intros fs H _.
      apply (all_tsv_rows_written node); [done..|].
      repeat first [apply Forall_nil_2 | apply Forall_cons_2]; try done.
      by apply (Hd _ _ Hg).
    + intros gene comment _ Hc. apply hoare_write_item; [|done]. intros fs H _.
      apply (all_tsv_rows_written edge); [done..|].
      repeat first [apply Forall_nil_2 | apply Forall_cons_2]; try done.
      by apply (Hd _ _ Hc).
Qed.

(** X4: when no line of the input holds a line feed before its last
    character, as the lines read from a text file do, then in the files of any
    run of the Drug Central transform, the header lines included, every chunk
    of the node file is three values joined by tabs and followed by a line
    feed, and every chunk of the edge file six such values: the joined values
    hold no line feed, so the line feed that ends the chunk is its only one,
    and splitting the joined values on tabs gives back the values. *)
Theorem written_lines_have_header_columns input_dir output_dir species interactions fs :
  Forall (λ line, text_line line = true) interactions →
  let out := (run (DrugCentralTransform_init input_dir output_dir) species
                  interactions fs).1 in
  (∀ chunk, chunk ∈ node_file out →
     ∃ values, chunk = PyStr.join TAB values +:+ NL ∧ length values = 3
               ∧ has_char PyStr.newline (PyStr.join TAB values) = false
               ∧ PyStr.split PyStr.tab (PyStr.join TAB values) = values)
  ∧ (∀ chunk, chunk ∈ edge_file out →
     ∃ values, chunk = PyStr.join TAB values +:+ NL ∧ length values = 6
               ∧ has_char PyStr.newline (PyStr.join TAB values) = false
               ∧ PyStr.split PyStr.tab (PyStr.join TAB values) = values).
Proof.
  intros Hlines. rewrite Forall_forall in Hlines.
  set (self := DrugCentralTransform_init input_dir output_dir). cbv zeta.
  assert (all_tsv_rows (header_files self)) as Hheader.
  { split; (constructor; [|constructor]).
    - exists ["id"; "name"; "category"]. split; [done|]. split; [done|].
      by repeat first [apply Forall_nil_2 | apply Forall_cons_2].
    - exists edge_header. split; [done|]. split; [done|].
      by repeat first [apply Forall_nil_2 | apply Forall_cons_2]. }
  assert (∀ line d,
            line ∈ interactions →
            parse_drug_central_line line (parse_header (readline interactions)) = inr d →
            hoare all_tsv_rows (row_body self species d)
              (λ _, all_tsv_rows) (λ _, all_tsv_rows)) as Hrow.
  { intros line d Hin Hd. apply row_body_tsv_rows; [done|done|].
    intros k v Hk. split.
    - by destruct (parse_values_clean _ _ _ _ _ Hd Hk).
    - eapply parse_values_preserve; [|exact Hd|exact Hk].
      by apply text_line_strip, Hlines. }
  pose proof (hoare_run_in self species interactions fs
                all_tsv_rows (λ _, all_tsv_rows) Hheader (λ _ H, H) Hrow) as Hrun.
  assert (all_tsv_rows (run self species interactions fs).1) as [Hnodes Hedges].
  { by destruct (run self species interactions fs) as [fs' [e|[]]]. }
  rewrite Forall_forall in Hnodes. rewrite Forall_forall in Hedges.
  split; intros chunk Hin.
  - destruct (tsv_row_split _ _ (Hnodes _ Hin))
      as (values & -> & Hlen & Hnl & Hsplit).
    exists values. repeat split; [done..|]. by apply Hsplit.
  - destruct (tsv_row_split _ _ (Hedges _ Hin))
      as (values & -> & Hlen & Hnl & Hsplit).
    exists values. repeat split; [done..|]. by apply Hsplit.
Qed.

Lemma written_lines_have_header_columns_witness :
  (∀ chunk,
     chunk ∈ node_file (run (DrugCentralTransform_init "data/raw" "data/transformed")
                          default_species [Sample.header; Sample.two_genes]
                          Sample.no_files).1 →
     ∃ values, chunk = PyStr.join TAB values +:+ NL ∧ length values = 3
               ∧ has_char PyStr.newline (PyStr.join TAB values) = false
               ∧ PyStr.split PyStr.tab (PyStr.join TAB values) = values)
  ∧ (∀ chunk,
       chunk ∈ edge_file (run (DrugCentralTransform_init "data/raw" "data/transformed")
                            default_species [Sample.header; Sample.two_genes]
                            Sample.no_files).1 →
       ∃ values, chunk = PyStr.join TAB values +:+ NL ∧ length values = 6
                 ∧ has_char PyStr.newline (PyStr.join TAB values) = false
                 ∧ PyStr.split PyStr.tab (PyStr.join TAB values) = values).
Proof.
  apply (written_lines_have_header_columns "data/raw" "data/transformed"
           default_species [Sample.header; Sample.two_genes] Sample.no_files).
  repeat first [apply Forall_nil_2 | apply Forall_cons_2]; vm_compute; reflexivity.
Defined.

(** ** The key errors of a run *)

Lemma row_body_exceptions self species d :
  length (node_header self) = 3 →
  hoare (λ _, True) (row_body self species d) (λ _ _, True) (λ e _, run_exn e).
Proof.
  intros Hlen.
  apply (hoare_row_body self species d _ _ (λ _ _ _, True)).
  - intros fs _. right. by left.
  - intros fs _. right. right. by left.
  - intros acc sid name _ _ _ _ _. split; [|split; [|done]].
    + apply hoare_write_item; [done|]. intros fs _ Hne. by rewrite Hlen in Hne.
    + intros gene_id _.
      apply (hoare_gene_body self d _ gene_id _ (λ _ _, True)).
      * intros fs _. do 3 right. by left.
      * intros gene fs _. by do 4 right.
      * intros gene _. apply hoare_write_item; [done|].
        intros fs _ Hne. by rewrite Hlen in Hne.
      * intros gene comment _ _. apply hoare_write_item; [done|].
        by intros fs _ Hne.
Qed.

(** X5: when a run of the Drug Central transform ends with a [KeyError], the
    key is DRUG_NAME, GENE or ACT_COMMENT: the ORGANISM subscript stands behind
    the membership test, and ACCESSION and STRUCT_ID are read through
    [get_item_by_priority].  And no run ends with the fault of
    [write_node_edge_item] on the number of values: every list the run writes
    has the three or six values of its header. *)
Theorem run_key_errors input_dir output_dir species interactions fs fs' e :
  run (DrugCentralTransform_init input_dir output_dir) species interactions fs
  = (fs', inl e) →
  e ≠ HeaderDataLengthError
  ∧ ∀ key, e = KeyError key → key = "DRUG_NAME" ∨ key = "GENE" ∨ key = "ACT_COMMENT".
Proof.
  intros Hrun.
  pose proof (hoare_run (DrugCentralTransform_init input_dir output_dir) species
                interactions fs (λ _, True) (λ e _, run_exn e)) as H.
  rewrite Hrun in H.
  assert (run_exn e) as He.
  { apply H; [done|by left|]. intros line d _. by apply row_body_exceptions. }
  destruct He as [->|[->|[->|[->| ->]]]];
    (split; [done|]); intros key Hkey; simplify_eq; auto.
Qed.

Lemma run_key_errors_witness :
  KeyError "GENE" ≠ HeaderDataLengthError
  ∧ ∀ key, KeyError "GENE" = KeyError key →
           key = "DRUG_NAME" ∨ key = "GENE" ∨ key = "ACT_COMMENT".
Proof.
  apply (run_key_errors "data/raw" "data/transformed" default_species
           [Sample.header_no_gene; Sample.human_no_gene] Sample.no_files
           (written node (tsv_line ["DrugCentral:99"; "Foo"; "biolink:Drug"])
              (header_files Sample.self))).
  vm_compute. reflexivity.
Defined.

(** ** Rows that are not skipped *)

Lemma row_body_not_silent self species d acc fs fs' r :
  d !! "ORGANISM" = Some species →
  d !! "ACCESSION" = Some acc → acc ≠ "" →
  row_body self species d fs = (fs', r) →
  (∃ e, r = inl e)
  ∨ ∃ sid name rest,
      d !! "STRUCT_ID" = Some sid ∧ d !! "DRUG_NAME" = Some name
      ∧ node_file fs'
        = node_file fs
          ++ tsv_line [drug_curie_prefix +:+ sid; name; drug_node_type] :: rest.
Proof.
  intros Horg Hacc Hne. unfold row_body. rewrite Horg.
  destruct (decide (species ≠ species)) as [|_]; [done|].
  rewrite (get_item_present d "ACCESSION" acc) by done.
  destruct (get_item_by_priority d ["STRUCT_ID"]) as [e|sid] eqn:Hsid.
  { rewrite (bind_lift_inl _ _ _ e) by done. intros [= <- <-]. left. by exists e. }
  rewrite (bind_lift_inr _ _ _ sid) by done. cbv zeta. unfold getitem.
  apply get_item_inr in Hsid as (k & ->%list_elem_of_singleton & Hsid & _).
  destruct (d !! "DRUG_NAME") as [name|] eqn:Hname.
  2: { rewrite (bind_lift_inl _ _ _ (KeyError "DRUG_NAME")) by done.
       intros [= <- <-]. left. by eexists. }
  rewrite (bind_lift_inr _ _ _ name) by done.
  unfold write_node_edge_item at 1.
  destruct (decide (length (node_header self) = _)) as [Hlen|Hlen].
  2: { erewrite bind_inl by reflexivity. intros [= <- <-]. left. by eexists. }
  erewrite bind_inr by reflexivity. cbv beta.
  match goal with |- for_each ?l ?body ?fs1 = _ → _ =>
    destruct (appends_for_each l body
                (λ g, appends_gene_body self d sid g) fs1)
      as (nodes & edges & Hn & _)
  end.
  intros Hrun. rewrite Hrun in Hn. simpl in Hn.
  right. exists sid, name, nodes. repeat split; [done..|].
  rewrite Hn. by rewrite <- app_assoc.
Qed.

(** X6: a row of the target organism with an ACCESSION field that is not
    empty is never dropped in silence: either its line ends the run with an
    exception, or the node file receives, right after what it held, the drug
    line of the row, made of the prefix and the STRUCT_ID field, the DRUG_NAME
    field and the drug category, before anything else the row writes. *)
Theorem qualifying_row_not_silent self species header_items line d acc fs :
  parse_drug_central_line line header_items = inr d →
  d !! "ORGANISM" = Some species →
  d !! "ACCESSION" = Some acc → acc ≠ "" →
  (∃ e, (line_body self species header_items line fs).2 = inl e)
  ∨ ∃ sid name rest,
      d !! "STRUCT_ID" = Some sid ∧ d !! "DRUG_NAME" = Some name
      ∧ node_file (line_body self species header_items line fs).1
        = node_file fs
          ++ tsv_line [drug_curie_prefix +:+ sid; name; drug_node_type] :: rest.
Proof.
  intros Hd Horg Hacc Hne.
  rewrite (line_body_parsed _ _ _ _ d) by done.
  destruct (row_body self species d fs) as [fs' r] eqn:Hrow.
  by apply (row_body_not_silent self species d acc fs fs' r).
Qed.

Lemma qualifying_row_not_silent_witness :
  (∃ e, (line_body Sample.self default_species (parse_header Sample.header)
           Sample.human Sample.no_files).2 = inl e)
  ∨ ∃ sid name rest,
      Sample.human_record !! "STRUCT_ID" = Some sid
      ∧ Sample.human_record !! "DRUG_NAME" = Some name
      ∧ node_file (line_body Sample.self default_species
                     (parse_header Sample.header) Sample.human Sample.no_files).1
        = node_file Sample.no_files
          ++ tsv_line [drug_curie_prefix +:+ sid; name; drug_node_type] :: rest.
Proof.
  apply (qualifying_row_not_silent Sample.self default_species
           (parse_header Sample.header) Sample.human Sample.human_record "P00001").
  - vm_compute. reflexivity.
  - vm_compute. reflexivity.
  - vm_compute. reflexivity.
  - discriminate.
Defined.

(** ** A header without the organism or the accession column *)



(** ** Rows are written in order and independently *)

(** X8: the files of a run over the first lines of an input are prefixes of
    the files of the run over the whole input: lines are handled in order,
    what is written is never changed, and a run that ends with an exception
    keeps what the earlier lines wrote. *)
Theorem prefix_of_input_gives_prefix_of_output self species header_line lines more fs :
  node_file (run self species (header_line :: lines) fs).1
    `prefix_of` node_file (run self species (header_line :: lines ++ more) fs).1
  ∧ edge_file (run self species (header_line :: lines) fs).1
    `prefix_of` edge_file (run self species (header_line :: lines ++ more) fs).1.
Proof.
  rewrite !run_cons. unfold loop. rewrite for_each_app.
  destruct (for_each lines _ (header_files self)) as [fs1 [e|[]]]; [done|].
  destruct (appends_loop self species (parse_header header_line) more fs1)
    as (nodes & edges & Hn & He & _).
  unfold loop in Hn, He. simpl. rewrite Hn, He.
  split; [by exists nodes|by exists edges].
Qed.

Lemma add_files_assoc fs out1 out2 :
  add_files (add_files fs out1) out2 = add_files fs (add_files out1 out2).
Proof. unfold add_files. simpl. by rewrite <- !app_assoc. Qed.

Lemma add_files_empty_l out :
  add_files {| node_file := []; edge_file := [] |} out = out.
Proof. by destruct out. Qed.

Lemma add_files_empty_r fs :
  add_files fs {| node_file := []; edge_file := [] |} = fs.
Proof. destruct fs. unfold add_files. simpl. by rewrite !app_nil_r. Qed.

Section Framed.
Context {A B : Type}.

Lemma framed_lift (r : result A) : framed (lift r).
Proof. intros fs. unfold lift. simpl. by rewrite add_files_empty_r. Qed.

Lemma framed_bind (m : M A) (k : A → M B) :
  framed m → (∀ a, framed (k a)) → framed (m ≫= k).
Proof.
  intros Hm Hk fs. unfold mbind, M_bind, bind. rewrite (Hm fs).
  destruct (m {| node_file := []; edge_file := [] |}) as [out1 [e|a]]; simpl; [done|].
  rewrite (Hk a (add_files fs out1)), (Hk a out1). simpl.
  by rewrite add_files_assoc.
Qed.
End Framed.

Lemma framed_write_item fh header data : framed (write_node_edge_item fh header data).
Proof.
  unfold write_node_edge_item. destruct (decide _); [|apply (framed_lift (inl _))].
  intros fs. destruct fh; unfold write, add_files; simpl; by rewrite app_nil_r.
Qed.

Lemma framed_for_each {A} (xs : list A) (body : A → M unit) :
  (∀ x, framed (body x)) → framed (for_each xs body).
Proof.
  intros Hbody. induction xs as [|x xs IH]; [apply (framed_lift (inr tt))|].
  simpl. by apply framed_bind.
Qed.

Lemma framed_loop self species header_items lines :
  framed (loop self species header_items lines).
Proof.
  apply framed_for_each. intros line. unfold line_body.
  apply framed_bind; [apply framed_lift|]. intros d. unfold row_body.
  destruct (d !! "ORGANISM") as [organism|]; [|apply (framed_lift (inr tt))].
  destruct (decide _); [apply (framed_lift (inr tt))|].
  destruct (get_item_by_priority d ["ACCESSION"]) as [e|acc].
  { destruct e; first [apply (framed_lift (inr tt)) | apply (framed_lift (inl _))]. }
  apply framed_bind; [apply framed_lift|]. intros sid.
  apply framed_bind; [apply framed_lift|]. intros name.
  apply framed_bind; [apply framed_write_item|]. intros _.
  apply framed_for_each. intros gene_id. unfold gene_body.
  apply framed_bind; [apply framed_lift|]. intros gene.
  apply framed_bind; [apply framed_write_item|]. intros _.
  apply framed_bind; [apply framed_lift|]. intros comment.
  apply framed_write_item.
Qed.

(** X9: rows leave no state behind.  When the data lines [lines1] alone
    write [out1] and return, and the data lines [lines2] alone write [out2],
    the run over both writes the header lines, [out1] and [out2]; lines that
    occur again are written again, nothing is deduplicated. *)
Theorem rows_written_independently
    self species header_line lines1 lines2 fs out1 out2 r :
  loop self species (parse_header header_line) lines1
    {| node_file := []; edge_file := [] |} = (out1, inr tt) →
  loop self species (parse_header header_line) lines2
    {| node_file := []; edge_file := [] |} = (out2, r) →
  run self species (header_line :: lines1 ++ lines2) fs
  = (add_files (add_files (header_files self) out1) out2, r).
Proof.
  intros H1 H2. rewrite run_cons. unfold loop in *. rewrite for_each_app.
  pose proof (framed_loop self species (parse_header header_line) lines1
                (header_files self)) as Hf1.
  unfold loop in Hf1. rewrite Hf1, H1. simpl.
  pose proof (framed_loop self species (parse_header header_line) lines2
                (add_files (header_files self) out1)) as Hf2.
  unfold loop in Hf2. by rewrite Hf2, H2.
Qed.

Lemma rows_written_independently_witness :
  run Sample.self default_species [Sample.header; Sample.human; Sample.human]
      Sample.no_files
  = ({| node_file :=
          [ tsv_line ["id"; "name"; "category"];
            tsv_line ["DrugCentral:99"; "Foo"; "biolink:Drug"];
            tsv_line ["UniProtKB:P00001"; "BAR"; "biolink:Gene"];
            tsv_line ["DrugCentral:99"; "Foo"; "biolink:Drug"];
            tsv_line ["UniProtKB:P00001"; "BAR"; "biolink:Gene"] ];
        edge_file :=
          [ tsv_line edge_header;
            tsv_line ["DrugCentral:99"; "biolink:interacts_with"; "UniProtKB:P00001";
                      "RO:0002436"; "drug_central"; "inhibits"];
            tsv_line ["DrugCentral:99"; "biolink:interacts_with"; "UniProtKB:P00001";
                      "RO:0002436"; "drug_central"; "inhibits"] ] |}, inr tt).
Proof.
  apply (rows_written_independently Sample.self default_species Sample.header
           [Sample.human] [Sample.human] Sample.no_files
           {| node_file :=
                [ tsv_line ["DrugCentral:99"; "Foo"; "biolink:Drug"];
                  tsv_line ["UniProtKB:P00001"; "BAR"; "biolink:Gene"] ];
              edge_file :=
                [ tsv_line ["DrugCentral:99"; "biolink:interacts_with";
                            "UniProtKB:P00001"; "RO:0002436"; "drug_central";
                            "inhibits"] ] |}
           {| node_file :=
                [ tsv_line ["DrugCentral:99"; "Foo"; "biolink:Drug"];
                  tsv_line ["UniProtKB:P00001"; "BAR"; "biolink:Gene"] ];
              edge_file :=
                [ tsv_line ["DrugCentral:99"; "biolink:interacts_with";
                            "UniProtKB:P00001"; "RO:0002436"; "drug_central";
                            "inhibits"] ] |}
           (inr tt)).
  - vm_compute. reflexivity.
  - vm_compute. reflexivity.
Defined.

(** ** Empty accessions between pipes *)

Lemma row_body_complete self species d acc sid name gene comment fs :
  length (node_header self) = 3 →
  d !! "ORGANISM" = Some species →
  d !! "ACCESSION" = Some acc → acc ≠ "" →
  d !! "STRUCT_ID" = Some sid → sid ≠ "" →
  d !! "DRUG_NAME" = Some name →
  d !! "GENE" = Some gene →
  d !! "ACT_COMMENT" = Some comment →
  row_body self species d fs
  = ({| node_file :=
          node_file fs
          ++ tsv_line [drug_curie_prefix +:+ sid; name; drug_node_type]
             :: (gene_node_line gene <$> PyStr.split PyStr.pipe acc);
        edge_file :=
          edge_file fs
          ++ (gene_edge_line self (drug_curie_prefix +:+ sid) comment
                <$> PyStr.split PyStr.pipe acc) |}, inr tt).
Proof.
  intros Hlen Horg Hacc Hne Hsid Hne' Hname Hgene Hcomment.
  rewrite (row_body_resolved _ _ _ acc sid) by done.
  unfold getitem. rewrite Hname.
  rewrite (bind_lift_inr _ _ _ name) by done.
  erewrite bind_inr; last by rewrite write_node_edge_item_ok.
  rewrite (for_each_gene_ok self Hlen d _ gene comment) by done.
  simpl. by rewrite <- !app_assoc.
Qed.

(** X10: the accessions between pipes are not filtered.  When the ACCESSION
    value of a complete row of the target organism starts or ends with a pipe,
    or has two pipes in a row, so that its split holds the empty string, the
    row writes a gene line whose id is the bare prefix [UniProtKB:] and an
    edge line whose object is that id. *)
Theorem empty_accession_segment_written
    self species header_items line d acc sid name gene comment fs :
  length (node_header self) = 3 →
  parse_drug_central_line line header_items = inr d →
  d !! "ORGANISM" = Some species →
  d !! "ACCESSION" = Some acc → acc ≠ "" →
  d !! "STRUCT_ID" = Some sid → sid ≠ "" →
  d !! "DRUG_NAME" = Some name →
  d !! "GENE" = Some gene →
  d !! "ACT_COMMENT" = Some comment →
  "" ∈ PyStr.split PyStr.pipe acc →
  (line_body self species header_items line fs).2 = inr tt
  ∧ tsv_line [gene_curie_prefix; gene; gene_node_type]
    ∈ node_file (line_body self species header_items line fs).1
  ∧ tsv_line [drug_curie_prefix +:+ sid; drug_gene_edge_label; gene_curie_prefix;
              drug_gene_edge_relation; source_name self; comment]
    ∈ edge_file (line_body self species header_items line fs).1.
Proof.
  intros Hlen Hd Horg Hacc Hne Hsid Hne' Hname Hgene Hcomment Hempty.
  rewrite (line_body_parsed _ _ _ _ d) by done.
  rewrite (row_body_complete self species d acc sid name gene comment) by done.
  simpl. repeat split.
  - apply elem_of_app. right. apply elem_of_cons. right.
    apply list_elem_of_fmap. by exists "".
  - apply elem_of_app. right. apply list_elem_of_fmap. by exists "".
Qed.

Lemma empty_accession_segment_written_witness :
  (line_body Sample.self default_species (parse_header Sample.header)
     Sample.trailing_pipe Sample.no_files).2 = inr tt
  ∧ tsv_line ["UniProtKB:"; "BAR"; "biolink:Gene"]
    ∈ node_file (line_body Sample.self default_species (parse_header Sample.header)
                   Sample.trailing_pipe Sample.no_files).1
  ∧ tsv_line ["DrugCentral:99"; "biolink:interacts_with"; "UniProtKB:"; "RO:0002436";
              "drug_central"; "inhibits"]
    ∈ edge_file (line_body Sample.self default_species (parse_header Sample.header)
                   Sample.trailing_pipe Sample.no_files).1.
Proof.
  apply (empty_accession_segment_written Sample.self default_species
           (parse_header Sample.header) Sample.trailing_pipe
           (<["ACCESSION" := "P00001|"]> Sample.human_record)
           "P00001|" "99" "Foo" "BAR" "inhibits" Sample.no_files).
  - reflexivity.
  - vm_compute. reflexivity.
  - vm_compute. reflexivity.
  - vm_compute. reflexivity.
  - discriminate.
  - vm_compute. reflexivity.
  - discriminate.
  - vm_compute. reflexivity.
  - vm_compute. reflexivity.
  - vm_compute. reflexivity.
  - apply (bool_decide_unpack _). vm_compute. exact I.
Defined.

(** ** Double quotes *)

Lemma no_quotes_written fh values fs :
  no_quotes fs →
  Forall (λ v, has_char PyStr.dquote v = false) values →
  no_quotes (written fh (tsv_line values) fs).
Proof.
  intros [Hn He] Hclean.
  assert (has_char PyStr.dquote (tsv_line values) = false) as Hline.
  { unfold tsv_line. rewrite has_char_app. by rewrite has_char_join. }
  destruct fh; split; simpl; try done.
  - apply Forall_app. split; [done|]. by constructor.
  - apply Forall_app. split; [done|]. by constructor.
Qed.

Lemma row_body_no_quotes self species d :
  has_char PyStr.dquote (source_name self) = false →
  map_Forall (λ _ v, has_char PyStr.dquote v = false) d →
  hoare no_quotes (row_body self species d) (λ _, no_quotes) (λ _, no_quotes).
Proof.
  intros Hsource Hd.
  apply (hoare_row_body self species d _ _ (λ acc sid fs, no_quotes fs)); [done..|].
  intros acc sid name _ Hacc _ Hsid Hname.
  assert (has_char PyStr.dquote (drug_curie_prefix +:+ sid) = false) as Hdrug.
  { rewrite has_char_app. by rewrite (Hd _ _ Hsid). }
  split; [|split; [|done]].
  - apply hoare_write_item; [|done]. intros fs H _.
    apply (no_quotes_written node); [done|].
    repeat first [apply Forall_nil_2 | apply Forall_cons_2]; try done.
    by apply (Hd _ _ Hname).
  - intros gene_id Hgene_id.
    assert (has_char PyStr.dquote (gene_curie_prefix +:+ gene_id) = false) as Hgene.
    { rewrite has_char_app.
      pose proof (split_Forall_preserve PyStr.dquote PyStr.pipe acc (Hd _ _ Hacc))
        as Hall.
      rewrite Forall_forall in Hall. by rewrite (Hall _ Hgene_id). }
    apply (hoare_gene_body self d _ gene_id _ (λ _, no_quotes)); [done..| |].
    + intros gene Hg. apply hoare_write_item; [|done]. intros fs H _.
      apply (no_quotes_written node); [done|].
      repeat first [apply Forall_nil_2 | apply Forall_cons_2]; try done.
      by apply (Hd _ _ Hg).
    + intros gene comment _ Hc. apply hoare_write_item; [|done]. intros fs H _.
      apply (no_quotes_written edge); [done|].
      repeat first [apply Forall_nil_2 | apply Forall_cons_2]; try done.
      by apply (Hd _ _ Hc).
Qed.

(** X11: double quotes of the input never reach the output: in the files of
    any run of the Drug Central transform no chunk holds a double quote,
    wherever the quotes stand in the fields of the input. *)
Theorem written_lines_have_no_quotes input_dir output_dir species interactions fs :
  let out := (run (DrugCentralTransform_init input_dir output_dir) species
                  interactions fs).1 in
  Forall (λ chunk, has_char PyStr.dquote chunk = false) (node_file out)
  ∧ Forall (λ chunk, has_char PyStr.dquote chunk = false) (edge_file out).
Proof.
  set (self := DrugCentralTransform_init input_dir output_dir). cbv zeta.
  pose proof (hoare_run self species interactions fs
                no_quotes (λ _, no_quotes)) as Hrun.
  change (no_quotes (run self species interactions fs).1).
  destruct (run self species interactions fs) as [fs' [e|[]]]; simpl;
    (apply Hrun; [split; by repeat constructor|done|]);
    intros line d Hd; (apply row_body_no_quotes; [done|]);
    intros k v Hk; by destruct (parse_values_clean _ _ _ _ _ Hd Hk).
Qed.
